(** * Medical claims data pipeline: claim schema and Kafka producer

    A shallow embedding of [src/models/claims_schema.py] and
    [src/producers/claims_producer.py], with the properties of the
    specification stated over it.

    Conventions of the embedding.
    - [Decimal] values are the rationals they denote.  The arithmetic the
      code performs on them (sums, one subtraction, [abs], comparisons) is
      exact in Python as long as the operands stay within the decimal
      context (28 significant digits, exponent below 10^6); the model covers
      that range.  pydantic refuses NaN and infinities for a [Decimal] field.
    - [float] values are IEEE 754 binary64 numbers, Rocq's primitive floats.
    - A naive [datetime] is its number of microseconds since the epoch.
    - [str] is [string], [int] is [Z], [Optional[T]] is [option T],
      [List[T]] is [list T], and a [Dict[str, T]] is an association list in
      insertion order.
    - The models declare no [Config], so pydantic's defaults apply:
      validators run when a model is constructed, and an attribute
      assignment stores the value as it is. *)

From Stdlib Require Import ZArith QArith Qabs List String Bool Lia.
From Stdlib Require Import DecimalString Permutation Lqa.
From Stdlib Require Floats.
Import ListNotations.

Local Open Scope string_scope.
Local Open Scope list_scope.
Local Open Scope Q_scope.

(** ** Python and pydantic basics *)

Definition Decimal := Q.
Definition datetime := Z.

(** One second, in the unit of [datetime]. *)
Definition one_second : Z := 1000000%Z.

(** A value of type [Any] stored in a metadata dictionary. *)
Inductive pyvalue : Type :=
| PyNone
| PyBool (b : bool)
| PyInt (z : Z)
| PyStr (s : string).

Definition pydict (V : Type) := list (string * V).

(** What a validator function does: return the value or raise [ValueError]. *)
Inductive outcome (A : Type) : Type :=
| Return (a : A)
| Raise (msg : string).
Arguments Return {A} a.
Arguments Raise {A} msg.

Definition and_then {A B : Type} (o : outcome A) (k : A -> outcome B) : outcome B :=
  match o with
  | Return a => k a
  | Raise msg => Raise msg
  end.

(** One entry of a [ValidationError]: the field and the message raised. *)
Record error_entry : Type := { loc : string; msg : string }.

(** What constructing a model does. *)
Inductive constructed (A : Type) : Type :=
| Valid (a : A)
| ValidationError (errors : list error_entry).
Arguments Valid {A} a.
Arguments ValidationError {A} errors.

Definition is_valid {A : Type} (r : constructed A) : bool :=
  match r with Valid _ => true | ValidationError _ => false end.

(** The error a field contributes to the [ValidationError], if any. *)
Definition field_errors {A : Type} (name : string) (o : outcome A) : list error_entry :=
  match o with
  | Return _ => []
  | Raise m => [{| loc := name; msg := m |}]
  end.

(** The entry of [values] for a field: present when the field validated. *)
Definition validated_value {A : Type} (o : outcome A) : option A :=
  match o with
  | Return a => Some a
  | Raise _ => None
  end.

(** Python's truth value of a string and of an optional object. *)
Definition str_truthy (s : option string) : bool :=
  match s with
  | Some EmptyString => false
  | Some (String _ _) => true
  | None => false
  end.

Definition obj_truthy {A : Type} (o : option A) : bool :=
  match o with Some _ => true | None => false end.

(** [s or d] for an optional string: [d] when [s] is [None] or empty. *)
Definition str_or (s : option string) (d : string) : string :=
  match s with
  | Some (String _ _ as t) => t
  | _ => d
  end.

(** Comparisons of decimals, by value. *)
Definition dec_lt (a b : Decimal) : bool := negb (Qle_bool b a).
Definition dec_gt (a b : Decimal) : bool := negb (Qle_bool a b).
Definition dec_le (a b : Decimal) : bool := Qle_bool a b.
Definition dec_is_zero (a : Decimal) : bool := Qeq_bool a 0.

(** Truth value of an [Optional[Decimal]]: [None] and zero are both false. *)
Definition dec_truthy (d : option Decimal) : bool :=
  match d with
  | Some q => negb (dec_is_zero q)
  | None => false
  end.

(** [d or Decimal('0')]. *)
Definition or_zero (d : option Decimal) : Decimal :=
  match d with
  | Some q => if dec_is_zero q then 0 else q
  | None => 0
  end.

(** The builtin [sum]: a left fold of [+] from [0]. *)
Definition py_sum (l : list Decimal) : Decimal := fold_left Qplus l 0.

(** The builtin [any] over truth values. *)
Definition py_any {A : Type} (f : A -> bool) (l : list A) : bool := existsb f l.

(** ** The claim schema *)

Inductive ClaimType : Type :=
| MEDICAL | DENTAL | VISION | PRESCRIPTION | LABORATORY_CLAIM
| RADIOLOGY | SURGERY | EMERGENCY | PREVENTIVE.

Inductive ClaimStatus : Type :=
| SUBMITTED | UNDER_REVIEW | APPROVED | DENIED | PAID | APPEALED | CLOSED.

Inductive ProviderType : Type :=
| PHYSICIAN | HOSPITAL | CLINIC | LABORATORY | PHARMACY | SPECIALIST
| NURSE_PRACTITIONER | PHYSICIAN_ASSISTANT.

Record DiagnosisCode : Type := {
  dx_code : string;
  dx_description : string;
  dx_primary : bool;
  dx_severity : option string
}.

Record ProcedureCode : Type := {
  code : string;
  description : string;
  modifier : option string;
  units : Z
}.

(** [ProcedureCode(code=..., description=..., modifier=..., units=...)]:
    [modifier] defaults to [None] and [units] to [1]; the class has no
    validator and [units] carries no bound. *)
Definition ProcedureCode_init (code description : string)
    (modifier : option string) (units : option Z) : constructed ProcedureCode :=
  Valid {| code := code;
           description := description;
           modifier := modifier;
           units := match units with Some u => u | None => 1%Z end |}.

Record ClaimLine : Type := {
  line_id : string;
  procedure_code : ProcedureCode;
  diagnosis_codes : list DiagnosisCode;
  service_date : datetime;
  billed_amount : Decimal;
  allowed_amount : option Decimal;
  paid_amount : option Decimal;
  place_of_service : string;
  rendering_provider_id : string
}.

(** [ClaimLine.validate_amounts], for the optional amounts and, through
    [Some], for the required one. *)
Definition validate_amounts (v : option Decimal) : outcome (option Decimal) :=
  match v with
  | Some q => if dec_lt q 0 then Raise "Amount cannot be negative" else Return v
  | None => Return v
  end.

(** [ClaimLine(...)]: [line_id] defaults to a fresh identifier; the three
    amounts pass through [validate_amounts] in declaration order. *)
Definition ClaimLine_init (uuid4 : string) (line_id : option string)
    (procedure_code : ProcedureCode) (diagnosis_codes : list DiagnosisCode)
    (service_date : datetime) (billed_amount : Decimal)
    (allowed_amount paid_amount : option Decimal)
    (place_of_service rendering_provider_id : string) : constructed ClaimLine :=
  let r_billed := validate_amounts (Some billed_amount) in
  let r_allowed := validate_amounts allowed_amount in
  let r_paid := validate_amounts paid_amount in
  match r_billed, r_allowed, r_paid with
  | Return _, Return allowed, Return paid =>
      Valid {| line_id := match line_id with Some i => i | None => uuid4 end;
               procedure_code := procedure_code;
               diagnosis_codes := diagnosis_codes;
               service_date := service_date;
               billed_amount := billed_amount;
               allowed_amount := allowed;
               paid_amount := paid;
               place_of_service := place_of_service;
               rendering_provider_id := rendering_provider_id |}
  | _, _, _ =>
      ValidationError (field_errors "billed_amount" r_billed
                       ++ field_errors "allowed_amount" r_allowed
                       ++ field_errors "paid_amount" r_paid)
  end.

Record Provider : Type := {
  provider_id : string;
  provider_name : string;
  provider_type : ProviderType;
  npi : string;
  tax_id : option string;
  provider_address : pydict string;
  provider_phone : option string;
  specialty : option string
}.

Record Patient : Type := {
  patient_id : string;
  member_id : string;
  first_name : string;
  last_name : string;
  date_of_birth : datetime;
  gender : string;
  patient_address : pydict string;
  patient_phone : option string
}.

Definition valid_genders : list string := ["M"; "F"; "O"; "U"].

(** [Patient.validate_gender]: [v not in valid_genders] raises. *)
Definition validate_gender (v : string) : outcome string :=
  if existsb (String.eqb v) valid_genders then Return v
  else Raise "Gender must be one of: ['M', 'F', 'O', 'U']".

Definition Patient_init (patient_id member_id first_name last_name : string)
    (date_of_birth : datetime) (gender : string) (address : pydict string)
    (phone : option string) : constructed Patient :=
  let r_gender := validate_gender gender in
  match r_gender with
  | Return g =>
      Valid {| patient_id := patient_id; member_id := member_id;
               first_name := first_name; last_name := last_name;
               date_of_birth := date_of_birth; gender := g;
               patient_address := address; patient_phone := phone |}
  | Raise _ => ValidationError (field_errors "gender" r_gender)
  end.

Record Insurance : Type := {
  insurance_id : string;
  payer_name : string;
  payer_id : string;
  group_number : string;
  subscriber_number : string;
  plan_type : string;
  coverage_start_date : datetime;
  coverage_end_date : option datetime
}.

(** The fields the producer tests for presence are optional here: the
    constructor always fills them, a later assignment may store [None]. *)
Record MedicalClaim : Type := {
  claim_id : option string;
  claim_number : option string;
  claim_type : ClaimType;
  claim_status : ClaimStatus;
  patient : option Patient;
  insurance : option Insurance;
  provider : option Provider;
  claim_lines : list ClaimLine;
  total_billed_amount : Decimal;
  total_allowed_amount : option Decimal;
  total_paid_amount : option Decimal;
  patient_responsibility : option Decimal;
  date_of_service : datetime;
  claim_received_date : datetime;
  claim_processed_date : option datetime;
  notes : option string;
  attachments : list string;
  metadata : pydict pyvalue
}.

(** *** Validators of [MedicalClaim] *)

Definition validate_total_amounts (v : option Decimal) : outcome (option Decimal) :=
  match v with
  | Some q => if dec_lt q 0 then Raise "Total amount cannot be negative" else Return v
  | None => Return v
  end.

Definition validate_claim_lines (v : list ClaimLine) : outcome (list ClaimLine) :=
  match v with
  | [] => Raise "Claim must have at least one line item"
  | _ :: _ => Return v
  end.

Definition tolerance : Decimal := 1 # 100.

(** [values_claim_lines] is [values.get('claim_lines')]: the lines when
    that field, declared earlier, passed its own validation. *)
Definition validate_total_billed_matches_lines (v : Decimal)
    (values_claim_lines : option (list ClaimLine)) : outcome Decimal :=
  match values_claim_lines with
  | Some lines =>
      let calculated_total := py_sum (map billed_amount lines) in
      if dec_gt (Qabs (v - calculated_total)) tolerance
      then Raise "Total billed amount must match sum of line items"
      else Return v
  | None => Return v
  end.

(** The two validators of [total_billed_amount], in declaration order; the
    second does not run when the first raises. *)
Definition total_billed_amount_validators (v : Decimal)
    (values_claim_lines : option (list ClaimLine)) : outcome Decimal :=
  and_then (validate_total_amounts (Some v)) (fun _ =>
  validate_total_billed_matches_lines v values_claim_lines).

(** *** Construction of a [MedicalClaim] *)

(** The keyword arguments of the constructor.  An argument with a default
    is optional. *)
Record MedicalClaimArgs : Type := {
  arg_claim_id : option string;
  arg_claim_number : string;
  arg_claim_type : ClaimType;
  arg_claim_status : option ClaimStatus;
  arg_patient : Patient;
  arg_insurance : Insurance;
  arg_provider : Provider;
  arg_claim_lines : list ClaimLine;
  arg_total_billed_amount : Decimal;
  arg_total_allowed_amount : option Decimal;
  arg_total_paid_amount : option Decimal;
  arg_patient_responsibility : option Decimal;
  arg_date_of_service : datetime;
  arg_claim_received_date : option datetime;
  arg_claim_processed_date : option datetime;
  arg_notes : option string;
  arg_attachments : option (list string);
  arg_metadata : option (pydict pyvalue)
}.

Definition default {A : Type} (o : option A) (d : A) : A :=
  match o with Some a => a | None => d end.

(** pydantic validates the fields in declaration order, collects the
    errors of all of them and raises one [ValidationError] when there is
    any.  [uuid4] and [utcnow] are what the default factories return. *)
Definition MedicalClaim_init (uuid4 : string) (utcnow : datetime)
    (a : MedicalClaimArgs) : constructed MedicalClaim :=
  let r_lines := validate_claim_lines (arg_claim_lines a) in
  let r_billed := total_billed_amount_validators (arg_total_billed_amount a)
                    (validated_value r_lines) in
  let r_allowed := validate_total_amounts (arg_total_allowed_amount a) in
  let r_paid := validate_total_amounts (arg_total_paid_amount a) in
  let r_resp := validate_total_amounts (arg_patient_responsibility a) in
  match r_lines, r_billed, r_allowed, r_paid, r_resp with
  | Return lines, Return billed, Return allowed, Return paid, Return resp =>
      Valid {| claim_id := Some (default (arg_claim_id a) uuid4);
               claim_number := Some (arg_claim_number a);
               claim_type := arg_claim_type a;
               claim_status := default (arg_claim_status a) SUBMITTED;
               patient := Some (arg_patient a);
               insurance := Some (arg_insurance a);
               provider := Some (arg_provider a);
               claim_lines := lines;
               total_billed_amount := billed;
               total_allowed_amount := allowed;
               total_paid_amount := paid;
               patient_responsibility := resp;
               date_of_service := arg_date_of_service a;
               claim_received_date := default (arg_claim_received_date a) utcnow;
               claim_processed_date := arg_claim_processed_date a;
               notes := arg_notes a;
               attachments := default (arg_attachments a) [];
               metadata := default (arg_metadata a) [] |}
  | _, _, _, _, _ =>
      ValidationError (field_errors "claim_lines" r_lines
                       ++ field_errors "total_billed_amount" r_billed
                       ++ field_errors "total_allowed_amount" r_allowed
                       ++ field_errors "total_paid_amount" r_paid
                       ++ field_errors "patient_responsibility" r_resp)
  end.

(** *** Attribute assignment *)

(** The part of a model's [Config] that decides what an assignment does. *)
Record ModelConfig : Type := { validate_assignment : bool }.

(** pydantic's default: [validate_assignment = False]. *)
Definition default_config : ModelConfig := {| validate_assignment := false |}.

(** [MedicalClaim] and [ClaimLine] declare no [Config]. *)
Definition MedicalClaim_Config : ModelConfig := default_config.

(** [obj.name = v]: with [validate_assignment] the field's validators run
    on [v] first and their error is raised; without it [v] is stored. *)
Definition assign {A M : Type} (cfg : ModelConfig) (name : string)
    (validate : A -> outcome A) (store : A -> M) (v : A) : constructed M :=
  if validate_assignment cfg then
    match validate v with
    | Return a => Valid (store a)
    | Raise m => ValidationError [{| loc := name; msg := m |}]
    end
  else Valid (store v).

Definition with_claim_lines (c : MedicalClaim) (v : list ClaimLine) : MedicalClaim :=
  {| claim_id := claim_id c; claim_number := claim_number c;
     claim_type := claim_type c; claim_status := claim_status c;
     patient := patient c; insurance := insurance c; provider := provider c;
     claim_lines := v;
     total_billed_amount := total_billed_amount c;
     total_allowed_amount := total_allowed_amount c;
     total_paid_amount := total_paid_amount c;
     patient_responsibility := patient_responsibility c;
     date_of_service := date_of_service c;
     claim_received_date := claim_received_date c;
     claim_processed_date := claim_processed_date c;
     notes := notes c; attachments := attachments c; metadata := metadata c |}.

Definition with_total_billed_amount (c : MedicalClaim) (v : Decimal) : MedicalClaim :=
  {| claim_id := claim_id c; claim_number := claim_number c;
     claim_type := claim_type c; claim_status := claim_status c;
     patient := patient c; insurance := insurance c; provider := provider c;
     claim_lines := claim_lines c;
     total_billed_amount := v;
     total_allowed_amount := total_allowed_amount c;
     total_paid_amount := total_paid_amount c;
     patient_responsibility := patient_responsibility c;
     date_of_service := date_of_service c;
     claim_received_date := claim_received_date c;
     claim_processed_date := claim_processed_date c;
     notes := notes c; attachments := attachments c; metadata := metadata c |}.

Definition with_total_allowed_amount (c : MedicalClaim) (v : option Decimal) : MedicalClaim :=
  {| claim_id := claim_id c; claim_number := claim_number c;
     claim_type := claim_type c; claim_status := claim_status c;
     patient := patient c; insurance := insurance c; provider := provider c;
     claim_lines := claim_lines c;
     total_billed_amount := total_billed_amount c;
     total_allowed_amount := v;
     total_paid_amount := total_paid_amount c;
     patient_responsibility := patient_responsibility c;
     date_of_service := date_of_service c;
     claim_received_date := claim_received_date c;
     claim_processed_date := claim_processed_date c;
     notes := notes c; attachments := attachments c; metadata := metadata c |}.

Definition with_total_paid_amount (c : MedicalClaim) (v : option Decimal) : MedicalClaim :=
  {| claim_id := claim_id c; claim_number := claim_number c;
     claim_type := claim_type c; claim_status := claim_status c;
     patient := patient c; insurance := insurance c; provider := provider c;
     claim_lines := claim_lines c;
     total_billed_amount := total_billed_amount c;
     total_allowed_amount := total_allowed_amount c;
     total_paid_amount := v;
     patient_responsibility := patient_responsibility c;
     date_of_service := date_of_service c;
     claim_received_date := claim_received_date c;
     claim_processed_date := claim_processed_date c;
     notes := notes c; attachments := attachments c; metadata := metadata c |}.

Definition with_patient_responsibility (c : MedicalClaim) (v : option Decimal) : MedicalClaim :=
  {| claim_id := claim_id c; claim_number := claim_number c;
     claim_type := claim_type c; claim_status := claim_status c;
     patient := patient c; insurance := insurance c; provider := provider c;
     claim_lines := claim_lines c;
     total_billed_amount := total_billed_amount c;
     total_allowed_amount := total_allowed_amount c;
     total_paid_amount := total_paid_amount c;
     patient_responsibility := v;
     date_of_service := date_of_service c;
     claim_received_date := claim_received_date c;
     claim_processed_date := claim_processed_date c;
     notes := notes c; attachments := attachments c; metadata := metadata c |}.


Definition set_total_billed_amount (c : MedicalClaim) (v : Decimal) : constructed MedicalClaim :=
  assign MedicalClaim_Config "total_billed_amount"
    (fun v => total_billed_amount_validators v (Some (claim_lines c)))
    (with_total_billed_amount c) v.

Definition set_total_allowed_amount (c : MedicalClaim) (v : option Decimal) : constructed MedicalClaim :=
  assign MedicalClaim_Config "total_allowed_amount" validate_total_amounts
    (with_total_allowed_amount c) v.

Definition set_total_paid_amount (c : MedicalClaim) (v : option Decimal) : constructed MedicalClaim :=
  assign MedicalClaim_Config "total_paid_amount" validate_total_amounts
    (with_total_paid_amount c) v.

Definition set_patient_responsibility (c : MedicalClaim) (v : option Decimal) : constructed MedicalClaim :=
  assign MedicalClaim_Config "patient_responsibility" validate_total_amounts
    (with_patient_responsibility c) v.

(** Sequencing of statements that may raise. *)
Definition then_do {A B : Type} (r : constructed A) (k : A -> constructed B) : constructed B :=
  match r with
  | Valid a => k a
  | ValidationError e => ValidationError e
  end.

Notation "'do' x <- r ; k" := (then_do r (fun x => k))
  (at level 10, x name, r at level 100, k at level 200).

(** *** [MedicalClaim.calculate_totals] *)

Definition calculate_totals (self : MedicalClaim) : constructed MedicalClaim :=
  do self <- set_total_billed_amount self
               (py_sum (map billed_amount (claim_lines self)));
  do self <- (if py_any (fun line => dec_truthy (allowed_amount line)) (claim_lines self)
              then set_total_allowed_amount self
                     (Some (py_sum (map (fun line => or_zero (allowed_amount line))
                                        (claim_lines self))))
              else Valid self);
  do self <- (if py_any (fun line => dec_truthy (paid_amount line)) (claim_lines self)
              then set_total_paid_amount self
                     (Some (py_sum (map (fun line => or_zero (paid_amount line))
                                        (claim_lines self))))
              else Valid self);
  match total_allowed_amount self, total_paid_amount self with
  | Some allowed, Some paid =>
      if dec_truthy (Some allowed) && dec_truthy (Some paid)
      then set_patient_responsibility self (Some (allowed - paid))
      else Valid self
  | _, _ => Valid self
  end.

(** The derived properties of a claim. *)
Definition claim_age_days (utcnow : datetime) (c : MedicalClaim) : Z :=
  ((utcnow - claim_received_date c) / (86400 * one_second))%Z.


Definition has_attachments (c : MedicalClaim) : bool :=
  (0 <? Z.of_nat (List.length (attachments c)))%Z.

(** *** [ClaimBatch] *)

Record ClaimBatch : Type := {
  batch_id : string;
  batch_number : string;
  claims : list MedicalClaim;
  batch_date : datetime;
  source_system : string;
  total_claims : Z;
  batch_total_billed_amount : Decimal
}.

(** The validators of [ClaimBatch]; [values_claims] is
    [values.get('claims')], present when the claims validated. *)
Definition validate_claims (v : list MedicalClaim) : outcome (list MedicalClaim) :=
  match v with
  | [] => Raise "Batch must contain at least one claim"
  | _ :: _ => Return v
  end.

Definition validate_total_claims (v : Z) (values_claims : option (list MedicalClaim))
    : outcome Z :=
  match values_claims with
  | Some batch_claims =>
      if negb (v =? Z.of_nat (List.length batch_claims))%Z
      then Raise "Total claims count must match actual claims count"
      else Return v
  | None => Return v
  end.

Definition validate_total_billed_amount (v : Decimal)
    (values_claims : option (list MedicalClaim)) : outcome Decimal :=
  match values_claims with
  | Some batch_claims =>
      let calculated_total := py_sum (map total_billed_amount batch_claims) in
      if dec_gt (Qabs (v - calculated_total)) tolerance
      then Raise "Total billed amount must match sum of claim amounts"
      else Return v
  | None => Return v
  end.

Definition ClaimBatch_init (uuid4 : string) (utcnow : datetime)
    (batch_id : option string) (batch_number : string) (batch_claims : list MedicalClaim)
    (batch_date : option datetime) (source_system : string) (total_claims : Z)
    (total_billed_amount : Decimal) : constructed ClaimBatch :=
  let r_claims := validate_claims batch_claims in
  let r_count := validate_total_claims total_claims (validated_value r_claims) in
  let r_billed :=
    validate_total_billed_amount total_billed_amount (validated_value r_claims) in
  match r_claims, r_count, r_billed with
  | Return cs, Return n, Return billed =>
      Valid {| batch_id := default batch_id uuid4;
               batch_number := batch_number;
               claims := cs;
               batch_date := default batch_date utcnow;
               source_system := source_system;
               total_claims := n;
               batch_total_billed_amount := billed |}
  | _, _, _ =>
      ValidationError (field_errors "claims" r_claims
                       ++ field_errors "total_claims" r_count
                       ++ field_errors "total_billed_amount" r_billed)
  end.

(** ** Quality metrics *)

Section QualityMetrics.
Import Floats.
Local Open Scope float_scope.

Record ClaimQualityMetrics : Type := {
  qm_claim_id : string;
  completeness_score : float;
  accuracy_score : float;
  validity_score : float;
  overall_score : float;
  missing_fields : list string;
  validation_errors : list string;
  data_anomalies : list string;
  created_at : datetime
}.

(** [Field(..., ge=0, le=100)] on a [float]: pydantic raises when
    [not v >= 0], then when [not v <= 100]. *)
Definition validate_score (v : float) : outcome float :=
  if negb (0 <=? v) then Raise "ensure this value is greater than or equal to 0"
  else if negb (v <=? 100) then Raise "ensure this value is less than or equal to 100"
  else Return v.

(** The literal [0.01] of the validator: the binary64 number nearest to
    one hundredth, [0x1.47ae147ae147bp-7]. *)
#[local] Set Warnings "-inexact-float".
Definition score_tolerance : float := 0.01.
#[local] Set Warnings "+inexact-float".

(** [(completeness + accuracy + validity) / 3], in binary64 arithmetic. *)
Definition mean_score (completeness accuracy validity : float) : float :=
  (completeness + accuracy + validity) / 3.

(** [ClaimQualityMetrics.calculate_overall_score]; the three options are the
    entries of [values], present for the scores that validated. *)
Definition calculate_overall_score (v : float)
    (values_completeness values_accuracy values_validity : option float) : outcome float :=
  match values_completeness, values_accuracy, values_validity with
  | Some completeness, Some accuracy, Some validity =>
      let calculated := mean_score completeness accuracy validity in
      if score_tolerance <? abs (v - calculated)
      then Raise "Overall score must be average of individual scores"
      else Return v
  | _, _, _ => Return v
  end.

Record ClaimQualityMetricsArgs : Type := {
  arg_qm_claim_id : string;
  arg_completeness_score : float;
  arg_accuracy_score : float;
  arg_validity_score : float;
  arg_overall_score : float;
  arg_missing_fields : option (list string);
  arg_validation_errors : option (list string);
  arg_data_anomalies : option (list string);
  arg_created_at : option datetime
}.

Definition ClaimQualityMetrics_init (utcnow : datetime)
    (a : ClaimQualityMetricsArgs) : constructed ClaimQualityMetrics :=
  let r_completeness := validate_score (arg_completeness_score a) in
  let r_accuracy := validate_score (arg_accuracy_score a) in
  let r_validity := validate_score (arg_validity_score a) in
  let r_overall :=
    and_then (validate_score (arg_overall_score a)) (fun v =>
    calculate_overall_score v (validated_value r_completeness)
      (validated_value r_accuracy) (validated_value r_validity)) in
  match r_completeness, r_accuracy, r_validity, r_overall with
  | Return completeness, Return accuracy, Return validity, Return overall =>
      Valid {| qm_claim_id := arg_qm_claim_id a;
               completeness_score := completeness;
               accuracy_score := accuracy;
               validity_score := validity;
               overall_score := overall;
               missing_fields := default (arg_missing_fields a) [];
               validation_errors := default (arg_validation_errors a) [];
               data_anomalies := default (arg_data_anomalies a) [];
               created_at := default (arg_created_at a) utcnow |}
  | _, _, _, _ =>
      ValidationError (field_errors "completeness_score" r_completeness
                       ++ field_errors "accuracy_score" r_accuracy
                       ++ field_errors "validity_score" r_validity
                       ++ field_errors "overall_score" r_overall)
  end.

(** A score lies in [[0, 100]]. *)
Definition score_in_range (v : float) : bool := (0 <=? v) && (v <=? 100).

(** [abs(overall - mean) <= 0.01], as binary64 arithmetic evaluates it. *)
Definition overall_within_tolerance (overall completeness accuracy validity : float) : bool :=
  abs (overall - mean_score completeness accuracy validity) <=? score_tolerance.

(** All five checks of the constructor. *)
Definition scores_consistent (completeness accuracy validity overall : float) : bool :=
  score_in_range completeness && score_in_range accuracy
  && score_in_range validity && score_in_range overall
  && overall_within_tolerance overall completeness accuracy validity.

(** A binary64 value, in the specification of the float operations, is a
    NaN; is a zero or a finite number. *)
Definition sf_is_nan (x : spec_float) : bool :=
  match x with S754_nan => true | _ => false end.

Definition sf_is_finite (x : spec_float) : bool :=
  match x with S754_zero _ | S754_finite _ _ _ => true | _ => false end.

(** Scores of 90, 80 and 70 with the given overall score. *)
Definition sample_metrics_args (overall : float) : ClaimQualityMetricsArgs :=
  {| arg_qm_claim_id := "claim-1";
     arg_completeness_score := 90;
     arg_accuracy_score := 80;
     arg_validity_score := 70;
     arg_overall_score := overall;
     arg_missing_fields := None;
     arg_validation_errors := None;
     arg_data_anomalies := None;
     arg_created_at := None |}.

End QualityMetrics.

(** ** The claims producer *)

(** What the broker reports for an acknowledged send. *)
Record RecordMetadata : Type := {
  md_topic : string;
  md_partition : Z;
  md_offset : Z;
  md_value : option string
}.

(** How [future.get(timeout=30)] ends: with the record's metadata, with
    [KafkaTimeoutError], or with another exception. *)
Inductive completion : Type :=
| Acked (md : RecordMetadata)
| KafkaTimeout
| SendError (exc : string).

(** The message [send_claim] hands to [producer.send]: the claim's dict with
    the [_metadata] envelope, its key and its headers. *)
Record Message : Type := {
  msg_topic : string;
  msg_key : option string;
  msg_value : MedicalClaim;
  msg_produced_at : datetime;
  msg_producer_version : string;
  msg_schema_version : string;
  header_claim_type : ClaimType;
  header_provider_id : option string;
  header_timestamp : Z
}.

Record Stats : Type := {
  messages_sent : Z;
  messages_failed : Z;
  bytes_sent : Z;
  last_send_time : option datetime;
  errors : list (datetime * string)
}.

(** The two methods [_initialize_producer] hands to [producer.add_callback]. *)
Inductive callback : Type :=
| on_send_success
| on_send_error.

(** The state of a [ClaimsProducer] together with its client: the statistics,
    the callbacks registered with the client in registration order, every
    message handed to [producer.send] so far, the messages of these that
    are still in flight, and the number of [send_claim] calls made. *)
Record ClaimsProducer : Type := {
  stats : Stats;
  callbacks : list callback;
  submitted : list Message;
  in_flight : list Message;
  calls : nat
}.

(** The surroundings of a producer, which the code does not decide:
    - [utcnow_at n]: the clock during the [n]-th call of [send_claim];
    - [respond n]: how the [n]-th message handed to the client completes;
    - [runs_callbacks]: whether the client runs the callables registered
      through [producer.add_callback] when a send is acknowledged, passing
      them the record metadata;
    - [drains]: whether the broker resolves what is still in flight when
      [flush] waits for it. *)
Record Env : Type := {
  utcnow_at : nat -> datetime;
  respond : nat -> completion;
  runs_callbacks : bool;
  drains : bool
}.

Definition topic_raw : string := "medical-claims-raw".

Definition fresh_stats : Stats :=
  {| messages_sent := 0%Z; messages_failed := 0%Z; bytes_sent := 0%Z;
     last_send_time := None; errors := [] |}.

(** [ClaimsProducer.__init__]: [_initialize_producer] registers
    [_on_send_success] and then [_on_send_error], both through
    [add_callback]; the statistics start at zero. *)
Definition ClaimsProducer_init : ClaimsProducer :=
  {| stats := fresh_stats;
     callbacks := [on_send_success; on_send_error];
     submitted := [];
     in_flight := [];
     calls := 0%nat |}.

Definition value_len (md : RecordMetadata) : Z :=
  match md_value md with
  | Some (String _ _ as v) => Z.of_nat (String.length v)
  | _ => 0%Z
  end.

(** [ClaimsProducer._on_send_success]. *)
Definition _on_send_success (utcnow : datetime) (s : Stats) (md : RecordMetadata) : Stats :=
  {| messages_sent := messages_sent s + 1;
     messages_failed := messages_failed s;
     bytes_sent := bytes_sent s + value_len md;
     last_send_time := Some utcnow;
     errors := errors s |}.

(** [ClaimsProducer._on_send_error]; [exc] is [str(exc)]. *)
Definition _on_send_error (utcnow : datetime) (s : Stats) (exc : string) : Stats :=
  {| messages_sent := messages_sent s;
     messages_failed := messages_failed s + 1;
     bytes_sent := bytes_sent s;
     last_send_time := last_send_time s;
     errors := errors s ++ [(utcnow, exc)] |}.

(** The text [str] gives for a record metadata object. *)
Definition md_str (md : RecordMetadata) : string :=
  String.append "RecordMetadata(topic=" (String.append (md_topic md) ")").

Definition run_callback (utcnow : datetime) (md : RecordMetadata) (s : Stats) (cb : callback) : Stats :=
  match cb with
  | on_send_success => _on_send_success utcnow s md
  | on_send_error => _on_send_error utcnow s (md_str md)
  end.

(** What an acknowledgement does to the statistics: the client runs every
    registered callback in order, or none. *)
Definition acknowledge (env : Env) (utcnow : datetime) (md : RecordMetadata)
    (cbs : list callback) (s : Stats) : Stats :=
  if runs_callbacks env then fold_left (run_callback utcnow md) cbs s else s.

(** The statement [self.stats['messages_failed'] += 1] of the two
    [except] blocks of [send_claim]. *)
Definition count_failed (s : Stats) : Stats :=
  {| messages_sent := messages_sent s;
     messages_failed := messages_failed s + 1;
     bytes_sent := bytes_sent s;
     last_send_time := last_send_time s;
     errors := errors s |}.

(** [ClaimsProducer._validate_claim]; its [try] block raises nothing on a
    claim of this type. *)
Definition _validate_claim (utcnow : datetime) (claim : MedicalClaim) : bool :=
  if negb (str_truthy (claim_id claim)) || negb (str_truthy (claim_number claim)) then false
  else if negb (obj_truthy (patient claim)) || negb (obj_truthy (provider claim))
          || negb (obj_truthy (insurance claim)) then false
  else if match claim_lines claim with [] => true | _ :: _ => false end
          || (Z.of_nat (List.length (claim_lines claim)) =? 0)%Z then false
  else if dec_le (total_billed_amount claim) 0 then false
  else if (utcnow <? date_of_service claim)%Z then false
  else true.

(** [ClaimsProducer._prepare_claim_message], with the key and headers
    [send_claim] adds. *)
Definition _prepare_claim_message (utcnow : datetime) (target_topic : string)
    (claim : MedicalClaim) : Message :=
  {| msg_topic := target_topic;
     msg_key := claim_id claim;
     msg_value := claim;
     msg_produced_at := utcnow;
     msg_producer_version := "1.0.0";
     msg_schema_version := "1.0.0";
     header_claim_type := claim_type claim;
     header_provider_id := option_map provider_id (provider claim);
     header_timestamp := (utcnow / one_second)%Z |}.

Definition with_stats (p : ClaimsProducer) (s : Stats) : ClaimsProducer :=
  {| stats := s; callbacks := callbacks p; submitted := submitted p;
     in_flight := in_flight p; calls := calls p |}.

Definition next_call (p : ClaimsProducer) : ClaimsProducer :=
  {| stats := stats p; callbacks := callbacks p; submitted := submitted p;
     in_flight := in_flight p; calls := S (calls p) |}.

(** [producer.send(...)]: the message is handed to the client. *)
Definition submit (p : ClaimsProducer) (m : Message) : ClaimsProducer :=
  {| stats := stats p; callbacks := callbacks p;
     submitted := submitted p ++ [m];
     in_flight := in_flight p ++ [m]; calls := calls p |}.

(** The send of the last message handed over is over: acknowledged or
    failed for good. *)
Definition settle (p : ClaimsProducer) : ClaimsProducer :=
  {| stats := stats p; callbacks := callbacks p; submitted := submitted p;
     in_flight := removelast (in_flight p); calls := calls p |}.

(** [ClaimsProducer.send_claim].  Every exception of the [try] block is
    caught, so the call returns a [bool] in every case. *)
Definition send_claim (env : Env) (self : ClaimsProducer) (claim : MedicalClaim)
    (topic : option string) : bool * ClaimsProducer :=
  let utcnow := utcnow_at env (calls self) in
  let self := next_call self in
  if negb (_validate_claim utcnow claim) then (false, self)
  else
    let target_topic := str_or topic topic_raw in
    let message := _prepare_claim_message utcnow target_topic claim in
    let nth_send := List.length (submitted self) in
    let self := submit self message in
    match respond env nth_send with
    | Acked md =>
        let self := settle self in
        (true, with_stats self (acknowledge env utcnow md (callbacks self) (stats self)))
    | KafkaTimeout =>
        (false, with_stats self (count_failed (stats self)))
    | SendError _ =>
        let self := settle self in
        (false, with_stats self (count_failed (stats self)))
    end.

Record BatchResults : Type := {
  total : Z;
  successful : Z;
  failed : Z
}.

Definition count_successful (r : BatchResults) : BatchResults :=
  {| total := total r; successful := successful r + 1; failed := failed r |}.

Definition count_failure (r : BatchResults) : BatchResults :=
  {| total := total r; successful := successful r; failed := failed r + 1 |}.

(** The loop of [send_claim_batch] over an attempt that returns a [bool] or
    raises: a raised exception is counted as failed and the loop goes on. *)
Fixpoint batch_loop {St : Type} (attempt : St -> MedicalClaim -> outcome bool * St)
    (self : St) (batch_claims : list MedicalClaim) (results : BatchResults)
    : BatchResults * St :=
  match batch_claims with
  | [] => (results, self)
  | claim :: rest =>
      let (r, self) := attempt self claim in
      let results :=
        match r with
        | Return true => count_successful results
        | Return false => count_failure results
        | Raise _ => count_failure results
        end in
      batch_loop attempt self rest results
  end.

(** The call in the [try] block of the loop, as an attempt the loop can
    run: [send_claim] returns and never raises. *)
Definition try_send_claim (env : Env) (target_topic : string)
    (self : ClaimsProducer) (claim : MedicalClaim) : outcome bool * ClaimsProducer :=
  let (sent, self) := send_claim env self claim (Some target_topic) in
  (Return sent, self).

(** [producer.flush()]: returns at once when nothing is in flight, and
    otherwise when the broker has resolved what is; [None] when the broker
    never does. *)
Definition flush (env : Env) (p : ClaimsProducer) : option ClaimsProducer :=
  match in_flight p with
  | [] => Some p
  | _ :: _ =>
      if drains env
      then Some {| stats := stats p; callbacks := callbacks p;
                   submitted := submitted p; in_flight := []; calls := calls p |}
      else None
  end.

(** [ClaimsProducer.send_claim_batch]; [None] when [flush] does not return. *)
Definition send_claim_batch (env : Env) (self : ClaimsProducer) (batch : ClaimBatch)
    (topic : option string) : option (BatchResults * ClaimsProducer) :=
  let results :=
    {| total := Z.of_nat (List.length (claims batch)); successful := 0; failed := 0 |} in
  let target_topic := str_or topic topic_raw in
  let (results, self) :=
    batch_loop (try_send_claim env target_topic) self (claims batch) results in
  match flush env self with
  | Some self => Some (results, self)
  | None => None
  end.

(** [get_stats]: the snapshot of the statistics. *)
Definition get_stats (p : ClaimsProducer) : Stats := stats p.

(** The number of claims of a batch that the gates of [_validate_claim]
    refuse, each at the time of its own [send_claim] call; [n] is the number
    of calls made before the batch. *)
Fixpoint rejected_count (env : Env) (n : nat) (batch_claims : list MedicalClaim) : Z :=
  match batch_claims with
  | [] => 0
  | claim :: rest =>
      (if _validate_claim (utcnow_at env n) claim then 0 else 1)
      + rejected_count env (S n) rest
  end%Z.

(** ** Sample data: the claim of the producer's usage example *)

Definition sample_patient : Patient :=
  {| patient_id := "PAT001"; member_id := "MEM001";
     first_name := "John"; last_name := "Doe";
     date_of_birth := 315532800000000%Z; gender := "M";
     patient_address := [("street", "123 Main St"); ("city", "Anytown");
                         ("state", "CA"); ("zip", "12345")];
     patient_phone := None |}.

Definition sample_provider : Provider :=
  {| provider_id := "PROV001"; provider_name := "Dr. Smith";
     provider_type := PHYSICIAN; npi := "1234567890"; tax_id := None;
     provider_address := [("street", "456 Medical Dr"); ("city", "Anytown");
                          ("state", "CA"); ("zip", "12345")];
     provider_phone := None; specialty := None |}.

Definition sample_insurance : Insurance :=
  {| insurance_id := "INS001"; payer_name := "Health Insurance Co";
     payer_id := "PAYER001"; group_number := "GRP001";
     subscriber_number := "SUB001"; plan_type := "PPO";
     coverage_start_date := 1672531200000000%Z;
     coverage_end_date := None |}.

(** 2023-08-01 00:00:00, and some later reading of the clock. *)
Definition aug_1_2023 : datetime := 1690848000000000%Z.
Definition sample_now : datetime := 1700000000000000%Z.

Definition sample_line (billed : Decimal) (allowed paid : option Decimal) : ClaimLine :=
  {| line_id := "line-1";
     procedure_code :=
       {| code := "99213";
          description := "Office visit, established patient, 20-29 minutes";
          modifier := None; units := 1 |};
     diagnosis_codes :=
       [{| dx_code := "Z00.00";
           dx_description := "Encounter for general adult medical examination without abnormal findings";
           dx_primary := true; dx_severity := None |}];
     service_date := aug_1_2023;
     billed_amount := billed;
     allowed_amount := allowed;
     paid_amount := paid;
     place_of_service := "11";
     rendering_provider_id := "PROV001" |}.

Definition sample_args (lines : list ClaimLine) (total_billed : Decimal) : MedicalClaimArgs :=
  {| arg_claim_id := None;
     arg_claim_number := "CLM001";
     arg_claim_type := MEDICAL;
     arg_claim_status := None;
     arg_patient := sample_patient;
     arg_insurance := sample_insurance;
     arg_provider := sample_provider;
     arg_claim_lines := lines;
     arg_total_billed_amount := total_billed;
     arg_total_allowed_amount := None;
     arg_total_paid_amount := None;
     arg_patient_responsibility := None;
     arg_date_of_service := aug_1_2023;
     arg_claim_received_date := None;
     arg_claim_processed_date := None;
     arg_notes := None;
     arg_attachments := None;
     arg_metadata := None |}.

(** The claim the constructor returns for [sample_args lines total_billed]
    when it accepts them. *)
Definition sample_claim (lines : list ClaimLine) (total_billed : Decimal) : MedicalClaim :=
  {| claim_id := Some "claim-1";
     claim_number := Some "CLM001";
     claim_type := MEDICAL;
     claim_status := SUBMITTED;
     patient := Some sample_patient;
     insurance := Some sample_insurance;
     provider := Some sample_provider;
     claim_lines := lines;
     total_billed_amount := total_billed;
     total_allowed_amount := None;
     total_paid_amount := None;
     patient_responsibility := None;
     date_of_service := aug_1_2023;
     claim_received_date := sample_now;
     claim_processed_date := None;
     notes := None;
     attachments := [];
     metadata := [] |}.

(** One line billed at 150.00, as in the usage example. *)
Definition example_claim : MedicalClaim :=
  sample_claim [sample_line (150 # 1) None None] (150 # 1).

(** ** Predicates the properties are stated with *)

Definition nonneg_opt (d : option Decimal) : Prop :=
  match d with Some q => 0 <= q | None => True end.

(** Invariants 1 to 3 of a claim: the lines are not empty, the billed total
    is within the tolerance of the sum of the lines, no total is negative. *)
Definition claim_invariants (c : MedicalClaim) : Prop :=
  claim_lines c <> []
  /\ Qabs (total_billed_amount c - py_sum (map billed_amount (claim_lines c))) <= tolerance
  /\ 0 <= total_billed_amount c
  /\ nonneg_opt (total_allowed_amount c)
  /\ nonneg_opt (total_paid_amount c)
  /\ nonneg_opt (patient_responsibility c).

(** The amounts of a line are ones [ClaimLine.validate_amounts] accepts. *)
Definition line_valid (line : ClaimLine) : Prop :=
  validate_amounts (Some (billed_amount line)) = Return (Some (billed_amount line))
  /\ validate_amounts (allowed_amount line) = Return (allowed_amount line)
  /\ validate_amounts (paid_amount line) = Return (paid_amount line).




(** A claim whose only line was paid nothing: billed 100, allowed 80,
    paid 0. *)
Definition zero_paid_claim : MedicalClaim :=
  sample_claim [sample_line (100 # 1) (Some (80 # 1)) (Some 0)] (100 # 1).


(** The outcome of one [send_claim] call, in the specification's terms. *)
Inductive publish_outcome : Type :=
| rejected
| delivered
| timed_out
| send_failed.

Definition outcome_of (env : Env) (p : ClaimsProducer) (claim : MedicalClaim) : publish_outcome :=
  if negb (_validate_claim (utcnow_at env (calls p)) claim) then rejected
  else match respond env (List.length (submitted p)) with
       | Acked _ => delivered
       | KafkaTimeout => timed_out
       | SendError _ => send_failed
       end.

(** [send_claim] called on each claim of a list in turn, through one
    producer: the outcomes in order, and the producer afterwards. *)
Fixpoint publish_all (env : Env) (p : ClaimsProducer) (l : list MedicalClaim)
    : list publish_outcome * ClaimsProducer :=
  match l with
  | [] => ([], p)
  | claim :: rest =>
      let o := outcome_of env p claim in
      let (os, p') := publish_all env (snd (send_claim env p claim None)) rest in
      (o :: os, p')
  end.

(** K and J: the sends that completed successfully, and those that failed
    by timeout or backend error. *)
Fixpoint count_delivered (os : list publish_outcome) : Z :=
  match os with
  | [] => 0
  | delivered :: rest => 1 + count_delivered rest
  | _ :: rest => count_delivered rest
  end%Z.

Fixpoint count_send_failures (os : list publish_outcome) : Z :=
  match os with
  | [] => 0
  | (timed_out | send_failed) :: rest => 1 + count_send_failures rest
  | _ :: rest => count_send_failures rest
  end%Z.

(** What one [send_claim] call adds to [messages_sent] and to
    [messages_failed], by the outcome of the call. *)
Definition sent_increment (env : Env) (o : publish_outcome) : Z :=
  match o with
  | delivered => if runs_callbacks env then 1 else 0
  | _ => 0
  end.

Definition failed_increment (env : Env) (o : publish_outcome) : Z :=
  match o with
  | delivered => if runs_callbacks env then 1 else 0
  | timed_out | send_failed => 1
  | rejected => 0
  end.

(** A gate of [_validate_claim] refuses the claim at time [utcnow]. *)
Definition gate_fails (utcnow : datetime) (claim : MedicalClaim) : Prop :=
  claim_id claim = None \/ claim_id claim = Some ""
  \/ claim_number claim = None \/ claim_number claim = Some ""
  \/ patient claim = None \/ provider claim = None \/ insurance claim = None
  \/ claim_lines claim = []
  \/ total_billed_amount claim <= 0
  \/ (utcnow < date_of_service claim)%Z.

(** Surroundings with a fixed clock in which every send completes as
    [resp]. *)
Definition env_of (resp : completion) (runs : bool) : Env :=
  {| utcnow_at := fun _ => sample_now;
     respond := fun _ => resp;
     runs_callbacks := runs;
     drains := true |}.


Definition sample_metadata : RecordMetadata :=
  {| md_topic := topic_raw; md_partition := 0; md_offset := 0; md_value := None |}.

(** [example_claim] with its service dated one second after [sample_now]. *)
Definition future_claim : MedicalClaim :=
  {| claim_id := claim_id example_claim;
     claim_number := claim_number example_claim;
     claim_type := claim_type example_claim;
     claim_status := claim_status example_claim;
     patient := patient example_claim;
     insurance := insurance example_claim;
     provider := provider example_claim;
     claim_lines := claim_lines example_claim;
     total_billed_amount := total_billed_amount example_claim;
     total_allowed_amount := total_allowed_amount example_claim;
     total_paid_amount := total_paid_amount example_claim;
     patient_responsibility := patient_responsibility example_claim;
     date_of_service := (sample_now + one_second)%Z;
     claim_received_date := claim_received_date example_claim;
     claim_processed_date := claim_processed_date example_claim;
     notes := notes example_claim;
     attachments := attachments example_claim;
     metadata := metadata example_claim |}.

Definition sample_batch (l : list MedicalClaim) : ClaimBatch :=
  {| batch_id := "batch-1";
     batch_number := "B001";
     claims := l;
     batch_date := sample_now;
     source_system := "billing";
     total_claims := Z.of_nat (List.length l);
     batch_total_billed_amount := py_sum (map total_billed_amount l) |}.

(** ** Dictionaries *)

(** A [dict] keeps its keys in insertion order and holds each key once.
    [d.get(k)], [k in d], [d[k] = v] and [d.update(other)]. *)
Fixpoint dict_get {V : Type} (k : string) (d : pydict V) : option V :=
  match d with
  | [] => None
  | (k', v) :: rest => if String.eqb k' k then Some v else dict_get k rest
  end.

Definition dict_get_default {V : Type} (k : string) (d : pydict V) (dflt : V) : V :=
  match dict_get k d with Some v => v | None => dflt end.

Definition dict_mem {V : Type} (k : string) (d : pydict V) : bool :=
  match dict_get k d with Some _ => true | None => false end.

Fixpoint dict_set {V : Type} (k : string) (v : V) (d : pydict V) : pydict V :=
  match d with
  | [] => [(k, v)]
  | (k', v') :: rest =>
      if String.eqb k' k then (k', v) :: rest else (k', v') :: dict_set k v rest
  end.

Definition dict_update {V : Type} (d other : pydict V) : pydict V :=
  fold_left (fun acc kv => dict_set (fst kv) (snd kv) acc) other d.

(** ** The producer's configuration and the factory *)

(** What [ClaimsProducer.__init__] reads from its configuration. *)
Record ProducerSettings : Type := {
  bootstrap_servers : pyvalue;
  settings_topic_raw : pyvalue;
  topic_validated : pyvalue;
  topic_alerts : pyvalue
}.

(** The first statements of [ClaimsProducer.__init__].  [get_config] is what
    [utils.config.get_config()] returns; [config or get_config()] falls back
    to it for [None] and for an empty dict. *)
Definition ClaimsProducer_settings (get_config : pydict pyvalue)
    (config : option (pydict pyvalue)) : ProducerSettings :=
  let config :=
    match config with
    | Some ((_ :: _) as d) => d
    | _ => get_config
    end in
  {| bootstrap_servers :=
       dict_get_default "kafka.bootstrap_servers" config (PyStr "localhost:9092");
     settings_topic_raw :=
       dict_get_default "kafka.topics.raw" config (PyStr "medical-claims-raw");
     topic_validated :=
       dict_get_default "kafka.topics.validated" config (PyStr "medical-claims-validated");
     topic_alerts :=
       dict_get_default "kafka.topics.alerts" config (PyStr "medical-claims-alerts") |}.

(** The table [env_configs] of [ClaimsProducerFactory.create_producer]. *)
Definition env_configs : pydict (pydict pyvalue) :=
  [("dev",
    [("kafka.bootstrap_servers", PyStr "localhost:9092");
     ("kafka.topics.raw", PyStr "medical-claims-raw-dev");
     ("kafka.topics.validated", PyStr "medical-claims-validated-dev");
     ("kafka.topics.alerts", PyStr "medical-claims-alerts-dev")]);
   ("staging",
    [("kafka.bootstrap_servers", PyStr "staging-kafka:9092");
     ("kafka.topics.raw", PyStr "medical-claims-raw-staging");
     ("kafka.topics.validated", PyStr "medical-claims-validated-staging");
     ("kafka.topics.alerts", PyStr "medical-claims-alerts-staging")]);
   ("prod",
    [("kafka.bootstrap_servers", PyStr "prod-kafka:9092");
     ("kafka.topics.raw", PyStr "medical-claims-raw");
     ("kafka.topics.validated", PyStr "medical-claims-validated");
     ("kafka.topics.alerts", PyStr "medical-claims-alerts")])].

(** [ClaimsProducerFactory.create_producer(environment, config)]: the
    settings of the producer it builds, and the configuration dict after
    the call ([update] changes the caller's dict in place). *)
Definition create_producer (get_config : pydict pyvalue) (environment : option string)
    (config : option (pydict pyvalue)) : ProducerSettings * pydict pyvalue :=
  let environment := match environment with Some e => e | None => "dev" end in
  let config := match config with Some d => d | None => get_config end in
  let config :=
    if dict_mem environment env_configs
    then dict_update config (dict_get_default environment env_configs [])
    else config in
  (ClaimsProducer_settings get_config (Some config), config).

(** The four keys the producer reads. *)
Definition settings_keys : list string :=
  ["kafka.bootstrap_servers"; "kafka.topics.raw"; "kafka.topics.validated";
   "kafka.topics.alerts"].

(** ** Alerts *)








(** ** Further predicates *)


(** The arguments that rebuild a claim: its fields as keyword arguments. *)
Definition args_of_claim (c : MedicalClaim) (p : Patient) (i : Insurance) (pr : Provider)
    (number : string) : MedicalClaimArgs :=
  {| arg_claim_id := claim_id c;
     arg_claim_number := number;
     arg_claim_type := claim_type c;
     arg_claim_status := Some (claim_status c);
     arg_patient := p;
     arg_insurance := i;
     arg_provider := pr;
     arg_claim_lines := claim_lines c;
     arg_total_billed_amount := total_billed_amount c;
     arg_total_allowed_amount := total_allowed_amount c;
     arg_total_paid_amount := total_paid_amount c;
     arg_patient_responsibility := patient_responsibility c;
     arg_date_of_service := date_of_service c;
     arg_claim_received_date := Some (claim_received_date c);
     arg_claim_processed_date := claim_processed_date c;
     arg_notes := notes c;
     arg_attachments := Some (attachments c);
     arg_metadata := Some (metadata c) |}.




(** * Properties *)

(** ** Construction of a claim *)

Lemma dec_gt_false_le (a b : Decimal) : dec_gt a b = false <-> a <= b.
Proof.
  unfold dec_gt. rewrite negb_false_iff. apply Qle_bool_iff.
Qed.

Lemma dec_lt_false_le (a b : Decimal) : dec_lt a b = false <-> b <= a.
Proof.
  unfold dec_lt. rewrite negb_false_iff. apply Qle_bool_iff.
Qed.

(** What the constructor has checked when it returns a claim. *)
Lemma MedicalClaim_init_valid (uuid4 : string) (utcnow : datetime)
    (a : MedicalClaimArgs) (c : MedicalClaim) :
  MedicalClaim_init uuid4 utcnow a = Valid c ->
  arg_claim_lines a <> []
  /\ 0 <= arg_total_billed_amount a
  /\ Qabs (arg_total_billed_amount a - py_sum (map billed_amount (arg_claim_lines a)))
     <= tolerance
  /\ claim_lines c = arg_claim_lines a
  /\ total_billed_amount c = arg_total_billed_amount a
  /\ total_allowed_amount c = arg_total_allowed_amount a
  /\ total_paid_amount c = arg_total_paid_amount a
  /\ patient_responsibility c = arg_patient_responsibility a.
Proof.
  unfold MedicalClaim_init, total_billed_amount_validators.
  destruct (arg_claim_lines a) as [|l ls] eqn:Hl; simpl; [discriminate|].
  destruct (dec_lt (arg_total_billed_amount a) 0) eqn:Hneg; simpl; [discriminate|].
  destruct (dec_gt _ tolerance) eqn:Htol; simpl; [discriminate|].
  destruct (validate_total_amounts (arg_total_allowed_amount a)) as [al|] eqn:Ha;
    [|discriminate].
  destruct (validate_total_amounts (arg_total_paid_amount a)) as [pd|] eqn:Hp;
    [|discriminate].
  destruct (validate_total_amounts (arg_patient_responsibility a)) as [rs|] eqn:Hr;
    [|discriminate].
  intros [= <-]; simpl.
  assert (Hsame : forall v r, validate_total_amounts v = Return r -> r = v).
  { intros [q|] r; simpl; [destruct (dec_lt q 0)|]; congruence. }
  apply Hsame in Ha, Hp, Hr. subst.
  repeat split; try congruence.
  - now apply dec_lt_false_le.
  - now apply dec_gt_false_le.
Qed.

Lemma validate_total_amounts_return (v r : option Decimal) :
  validate_total_amounts v = Return r -> r = v /\ nonneg_opt v.
Proof.
  destruct v as [q|]; simpl; [|intros [= <-]; auto].
  destruct (dec_lt q 0) eqn:Hq; [discriminate|].
  intros [= <-]. split; [reflexivity|]. now apply dec_lt_false_le.
Qed.

(** A claim the constructor returns satisfies invariants 1 to 3. *)
Lemma MedicalClaim_init_invariants (uuid4 : string) (utcnow : datetime)
    (a : MedicalClaimArgs) (c : MedicalClaim) :
  MedicalClaim_init uuid4 utcnow a = Valid c -> claim_invariants c.
Proof.
  intros H. destruct (MedicalClaim_init_valid _ _ _ _ H)
    as (Hne & Hpos & Htol & Hl & Hb & _).
  unfold claim_invariants. rewrite Hl, Hb. repeat split; auto.
  all: revert H; unfold MedicalClaim_init;
    destruct (validate_claim_lines _); try discriminate;
    destruct (total_billed_amount_validators _ _); try discriminate;
    destruct (validate_total_amounts (arg_total_allowed_amount a)) eqn:Ha; try discriminate;
    destruct (validate_total_amounts (arg_total_paid_amount a)) eqn:Hp; try discriminate;
    destruct (validate_total_amounts (arg_patient_responsibility a)) eqn:Hr; try discriminate;
    intros [= <-]; simpl;
    apply validate_total_amounts_return in Ha, Hp, Hr;
    destruct Ha as [-> ?], Hp as [-> ?], Hr as [-> ?]; assumption.
Qed.




(** ** Assignment *)





(** ** [ProcedureCode] *)

(** C9, as the claim states it: a [ProcedureCode] with [units] of zero or
    below is refused.  It is not: zero and a negative number construct. *)
Lemma units_below_one_are_accepted :
  (exists p, ProcedureCode_init "99213" "Office visit" None (Some 0%Z) = Valid p
             /\ ~ (1 <= units p)%Z)
  /\ (exists p, ProcedureCode_init "99213" "Office visit" None (Some (-3)%Z) = Valid p
                /\ ~ (1 <= units p)%Z).
Proof.
  split; eexists; (split; [reflexivity|]); simpl; lia.
Qed.

(** C9, amended.  [units] defaults to 1, and the constructor accepts every
    integer given for it, storing it as it is. *)
Theorem units_default_one_and_unconstrained (code description : string)
    (modifier : option string) :
  (exists p, ProcedureCode_init code description modifier None = Valid p
             /\ units p = 1%Z)
  /\ (forall u : Z, exists p,
        ProcedureCode_init code description modifier (Some u) = Valid p
        /\ units p = u).
Proof.
  split; [|intros u]; eexists; split; reflexivity.
Qed.

(** ** [calculate_totals] *)












(** C2 at the claim with one line billed 100, allowed 80 and paid 0.  The
    line's [paid_amount] is not null, yet [total_paid_amount] is not
    recomputed and [patient_responsibility] stays unset. *)
Theorem calculate_totals_zero_paid_line :
  (exists line, In line (claim_lines zero_paid_claim) /\ paid_amount line = Some 0)
  /\ exists c, calculate_totals zero_paid_claim = Valid c
               /\ total_billed_amount c = 100 # 1
               /\ total_allowed_amount c = Some (80 # 1)
               /\ total_paid_amount c = None
               /\ patient_responsibility c = None.
Proof.
  split.
  - eexists; split; [left; reflexivity|reflexivity].
  - eexists; split; [reflexivity|]. repeat split; reflexivity.
Qed.




(** ** Pre-publish validation *)

Lemma gate_fails_rejects (utcnow : datetime) (claim : MedicalClaim) :
  gate_fails utcnow claim -> _validate_claim utcnow claim = false.
Proof.
  unfold gate_fails, _validate_claim.
  destruct (claim_id claim) as [[|? ?]|]; simpl; auto.
  destruct (claim_number claim) as [[|? ?]|]; simpl; auto.
  destruct (patient claim); simpl; auto.
  destruct (provider claim); simpl; auto.
  destruct (insurance claim); simpl; auto.
  destruct (claim_lines claim); simpl; auto.
  destruct (dec_le _ _) eqn:Hb; auto.
  destruct (_ <? _)%Z eqn:Hd; auto.
  intros H. exfalso.
  repeat (destruct H as [H|H]; [discriminate|]).
  destruct H as [H|H].
  - apply Qle_bool_iff in H. unfold dec_le in Hb. congruence.
  - apply Z.ltb_lt in H. congruence.
Qed.


(** C5.  A claim a gate refuses, one dated after the clock's reading among
    them, makes [send_claim] return [False]: nothing is handed to the
    client and the statistics, [messages_failed] among them, stay as they
    were. *)
Theorem rejected_claim_leaves_no_trace (env : Env) (self : ClaimsProducer)
    (claim : MedicalClaim) (topic : option string) :
  gate_fails (utcnow_at env (calls self)) claim ->
  fst (send_claim env self claim topic) = false
  /\ outcome_of env self claim = rejected
  /\ get_stats (snd (send_claim env self claim topic)) = get_stats self
  /\ messages_failed (get_stats (snd (send_claim env self claim topic)))
     = messages_failed (get_stats self)
  /\ submitted (snd (send_claim env self claim topic)) = submitted self
  /\ in_flight (snd (send_claim env self claim topic)) = in_flight self
  /\ callbacks (snd (send_claim env self claim topic)) = callbacks self.
Proof.
  intros H. apply gate_fails_rejects in H.
  unfold send_claim, outcome_of. rewrite H. simpl. repeat split.
Qed.

Lemma rejected_future_claim_witness :
  (utcnow_at (env_of (Acked sample_metadata) true) 0 < date_of_service future_claim)%Z
  /\ fst (send_claim (env_of (Acked sample_metadata) true) ClaimsProducer_init
            future_claim None) = false
  /\ get_stats (snd (send_claim (env_of (Acked sample_metadata) true) ClaimsProducer_init
                       future_claim None)) = fresh_stats
  /\ submitted (snd (send_claim (env_of (Acked sample_metadata) true) ClaimsProducer_init
                       future_claim None)) = [].
Proof.
  assert (Hlt : (utcnow_at (env_of (Acked sample_metadata) true) 0
                 < date_of_service future_claim)%Z) by reflexivity.
  split; [exact Hlt|].
  destruct (rejected_claim_leaves_no_trace (env_of (Acked sample_metadata) true)
              ClaimsProducer_init future_claim None) as (H1 & _ & H2 & _ & H3 & _).
  - unfold gate_fails. do 9 right. exact Hlt.
  - repeat split; assumption.
Defined.

(** ** Statistics *)

Section Statistics.
Variable env : Env.

Lemma send_claim_callbacks (p : ClaimsProducer) (claim : MedicalClaim) (topic : option string) :
  callbacks (snd (send_claim env p claim topic)) = callbacks p.
Proof.
  unfold send_claim. destruct (negb _); [reflexivity|].
  simpl. now destruct (respond env _).
Qed.

Lemma send_claim_calls (p : ClaimsProducer) (claim : MedicalClaim) (topic : option string) :
  calls (snd (send_claim env p claim topic)) = S (calls p).
Proof.
  unfold send_claim. destruct (negb _); [reflexivity|].
  simpl. now destruct (respond env _).
Qed.

Lemma send_claim_statistics (p : ClaimsProducer) (claim : MedicalClaim) (topic : option string) :
  callbacks p = [on_send_success; on_send_error] ->
  let s' := stats (snd (send_claim env p claim topic)) in
  (messages_sent s' = messages_sent (stats p) + sent_increment env (outcome_of env p claim)
   /\ messages_failed s' = messages_failed (stats p) + failed_increment env (outcome_of env p claim))%Z.
Proof.
  intros Hcb. unfold send_claim, outcome_of, sent_increment, failed_increment.
  destruct (negb _); simpl; [lia|].
  destruct (respond env _); simpl; try lia.
  unfold acknowledge. rewrite Hcb. destruct (runs_callbacks env); simpl; lia.
Qed.

Lemma publish_all_statistics (l : list MedicalClaim) (p : ClaimsProducer) :
  callbacks p = [on_send_success; on_send_error] ->
  let os := fst (publish_all env p l) in
  let s' := get_stats (snd (publish_all env p l)) in
  (messages_sent s' = messages_sent (stats p)
                      + (if runs_callbacks env then count_delivered os else 0)
   /\ messages_failed s' = messages_failed (stats p) + count_send_failures os
                           + (if runs_callbacks env then count_delivered os else 0))%Z.
Proof.
  revert p. induction l as [|claim rest IH]; intros p Hcb; cbn [publish_all].
  - cbn [fst snd count_delivered count_send_failures]. unfold get_stats.
    destruct (runs_callbacks env); lia.
  - pose proof (send_claim_statistics p claim None Hcb) as [Hs Hf].
    specialize (IH (snd (send_claim env p claim None))).
    rewrite send_claim_callbacks in IH. specialize (IH Hcb).
    destruct (publish_all env (snd (send_claim env p claim None)) rest) as [os p'].
    cbn [fst snd] in *. destruct IH as [IHs IHf]. rewrite IHs, IHf, Hs, Hf.
    unfold sent_increment, failed_increment.
    destruct (outcome_of env p claim), (runs_callbacks env);
      cbn [count_delivered count_send_failures]; lia.
Qed.

End Statistics.

(** X7.  The statistics of a fresh producer after any sequence of [send_claim]
    calls: [messages_sent] is K when the client runs the registered
    callbacks and 0 when it does not, and [messages_failed] is J, plus K
    when it runs them. *)
Lemma statistics_after_publishing (env : Env) (l : list MedicalClaim) :
  let os := fst (publish_all env ClaimsProducer_init l) in
  let s := get_stats (snd (publish_all env ClaimsProducer_init l)) in
  (messages_sent s = (if runs_callbacks env then count_delivered os else 0)
   /\ messages_failed s = count_send_failures os
                          + (if runs_callbacks env then count_delivered os else 0))%Z.
Proof.
  pose proof (publish_all_statistics env l ClaimsProducer_init eq_refl) as H.
  simpl in H. exact H.
Qed.

(** C3 at one acknowledged send (K = 1, J = 0) through a fresh producer.
    When the client runs the callbacks registered with [add_callback], both
    run and the send is counted as sent and as failed; when it does not,
    the send is not counted at all.  In neither case does the snapshot
    read [messages_sent = 1] and [messages_failed = 0]. *)
Theorem acknowledged_send_is_miscounted (runs : bool) :
  let env := env_of (Acked sample_metadata) runs in
  let r := send_claim env ClaimsProducer_init example_claim None in
  fst r = true
  /\ outcome_of env ClaimsProducer_init example_claim = delivered
  /\ messages_sent (get_stats (snd r)) = (if runs then 1 else 0)%Z
  /\ messages_failed (get_stats (snd r)) = (if runs then 1 else 0)%Z
  /\ ~ (messages_sent (get_stats (snd r)) = 1%Z
        /\ messages_failed (get_stats (snd r)) = 0%Z).
Proof.
  destruct runs; vm_compute; repeat split; try reflexivity; intros [? ?]; discriminate.
Qed.

(** ** Batches *)



Section Batches.
Variable env : Env.
Variable target_topic : string.





End Batches.





(** ** Quality metrics *)

Section QualityMetricsFacts.
Import Floats.
Local Open Scope float_scope.

(** *** No operation of the validator produces a NaN from scores in range *)

Lemma iter_pos_invariant {A : Type} (P : A -> Prop) (f : A -> A) :
  (forall x, P x -> P (f x)) -> forall p x, P x -> P (SpecFloat.iter_pos f p x).
Proof.
  intros Hf. induction p as [p IH|p IH|]; intros x Hx; simpl; auto.
Qed.

Lemma shr_1_nonneg (mrs : shr_record) :
  (0 <= shr_m mrs)%Z -> (0 <= shr_m (shr_1 mrs))%Z.
Proof.
  destruct mrs as [m r s]. destruct m as [|[p|p|]|p]; simpl; lia.
Qed.

Lemma shr_fexp_nonneg (prec emax m e : Z) (l : location) :
  (0 <= m)%Z -> (0 <= shr_m (fst (shr_fexp prec emax m e l)))%Z.
Proof.
  intros Hm. unfold shr_fexp, shr.
  assert (H0 : (0 <= shr_m (shr_record_of_loc m l))%Z).
  { destruct l as [|[]]; simpl; exact Hm. }
  destruct (_ - e)%Z; simpl; auto.
  now apply (iter_pos_invariant (fun mrs => (0 <= shr_m mrs)%Z) shr_1 shr_1_nonneg).
Qed.

Lemma round_nearest_even_nonneg (m : Z) (l : location) :
  (0 <= m)%Z -> (0 <= round_nearest_even m l)%Z.
Proof.
  intros Hm. destruct l as [|[]]; simpl; try lia. destruct (Z.even m); lia.
Qed.

Lemma binary_round_aux_not_nan (prec emax : Z) (sx : bool) (mx ex : Z) (lx : location) :
  (0 <= mx)%Z -> sf_is_nan (binary_round_aux prec emax sx mx ex lx) = false.
Proof.
  intros Hm. unfold binary_round_aux.
  pose proof (shr_fexp_nonneg prec emax mx ex lx Hm) as H1.
  destruct (shr_fexp prec emax mx ex lx) as [mrs' e']. simpl in H1.
  pose proof (shr_fexp_nonneg prec emax _ e' loc_Exact
                (round_nearest_even_nonneg _ (loc_of_shr_record mrs') H1)) as H2.
  destruct (shr_fexp prec emax _ e' loc_Exact) as [mrs'' e'']. simpl in H2.
  destruct (shr_m mrs''); [reflexivity| |lia].
  now destruct (_ <=? _)%Z.
Qed.

Lemma binary_normalize_not_nan (prec emax m e : Z) (szero : bool) :
  sf_is_nan (binary_normalize prec emax m e szero) = false.
Proof.
  unfold binary_normalize, binary_round.
  destruct m; [reflexivity| |];
    destruct (shl_align _ _ _); now apply binary_round_aux_not_nan.
Qed.

Lemma SFadd_not_nan (prec emax : Z) (x y : spec_float) :
  sf_is_nan x = false -> sf_is_finite y = true ->
  sf_is_nan (SFadd prec emax x y) = false.
Proof.
  destruct x as [sx|sx| |sx mx ex], y as [sy|sy| |sy my ey]; simpl;
    try discriminate; try reflexivity; intros _ _.
  - now destruct sx, sy.
  - apply binary_normalize_not_nan.
Qed.

Lemma SFsub_not_nan (prec emax : Z) (x y : spec_float) :
  sf_is_finite x = true -> sf_is_nan y = false ->
  sf_is_nan (SFsub prec emax x y) = false.
Proof.
  destruct x as [sx|sx| |sx mx ex], y as [sy|sy| |sy my ey]; simpl;
    try discriminate; try reflexivity; intros _ _.
  - now destruct sx, sy.
  - apply binary_normalize_not_nan.
Qed.

Lemma SFdiv_not_nan (prec emax : Z) (x : spec_float) (sy : bool) (my : positive) (ey : Z) :
  sf_is_nan x = false ->
  sf_is_nan (SFdiv prec emax x (S754_finite sy my ey)) = false.
Proof.
  destruct x as [sx|sx| |sx mx ex]; simpl; try discriminate; try reflexivity; intros _.
  unfold SFdiv_core_binary.
  set (m' := match _ with Zpos _ => _ | Z0 => _ | Zneg _ => _ end).
  assert (Hm' : (0 <= m')%Z).
  { subst m'. destruct (_ - _ - _)%Z; try lia. apply Z.shiftl_nonneg. lia. }
  pose proof (Z.div_pos m' (Zpos my) Hm' eq_refl) as Hq.
  unfold Z.div in Hq. destruct (Z.div_eucl m' (Zpos my)) as [q r]. simpl in Hq.
  now apply binary_round_aux_not_nan.
Qed.

Lemma SFabs_not_nan (x : spec_float) : sf_is_nan x = false -> sf_is_nan (SFabs x) = false.
Proof. now destruct x. Qed.

Lemma finite_not_nan (x : spec_float) : sf_is_finite x = true -> sf_is_nan x = false.
Proof. now destruct x. Qed.

Lemma SFcompare_antisym (x y : spec_float) :
  SFcompare y x = option_map CompOpp (SFcompare x y).
Proof.
  destruct x as [sx|sx| |sx mx ex], y as [sy|sy| |sy my ey]; simpl;
    try reflexivity; try (now destruct sx); try (now destruct sy);
    try (now destruct sx, sy).
  f_equal. rewrite (Z.compare_antisym ex ey).
  pose proof (Pos.compare_cont_antisym mx my Eq) as Hm. simpl in Hm.
  rewrite <- Hm.
  destruct sx, sy; simpl; try reflexivity;
    destruct (ex ?= ey)%Z; simpl; try reflexivity;
    now destruct (Pos.compare_cont Eq mx my).
Qed.

Lemma SFcompare_not_nan (x y : spec_float) :
  sf_is_nan x = false -> sf_is_nan y = false -> SFcompare x y <> None.
Proof.
  destruct x, y; simpl; discriminate.
Qed.

Lemma ltb_negb_leb (x y : float) :
  sf_is_nan (Prim2SF x) = false -> sf_is_nan (Prim2SF y) = false ->
  (x <? y) = negb (y <=? x).
Proof.
  intros Hx Hy. rewrite ltb_spec, leb_spec. unfold SFltb, SFleb.
  rewrite (SFcompare_antisym (Prim2SF x) (Prim2SF y)).
  pose proof (SFcompare_not_nan _ _ Hx Hy) as Hc.
  destruct (SFcompare (Prim2SF x) (Prim2SF y)) as [[]|]; simpl; congruence.
Qed.

Lemma in_range_finite (v : float) :
  (0 <=? v) = true -> (v <=? 100) = true -> sf_is_finite (Prim2SF v) = true.
Proof.
  rewrite !leb_spec.
  change (Prim2SF 0) with (S754_zero false).
  replace (Prim2SF 100) with (S754_finite false 7036874417766400 (-46)) by (vm_compute; reflexivity).
  destruct (Prim2SF v) as [s|[|]| |s m e]; simpl; try reflexivity;
    intros H1 H2; discriminate.
Qed.

Lemma score_in_range_finite (v : float) :
  score_in_range v = true -> sf_is_finite (Prim2SF v) = true.
Proof.
  unfold score_in_range. intros H. apply andb_true_iff in H as [H0 H100].
  now apply in_range_finite.
Qed.

Lemma difference_not_nan (overall completeness accuracy validity : float) :
  score_in_range completeness = true -> score_in_range accuracy = true ->
  score_in_range validity = true -> score_in_range overall = true ->
  sf_is_nan (Prim2SF (abs (overall - mean_score completeness accuracy validity))) = false.
Proof.
  intros Hc Ha Hv Ho. apply score_in_range_finite in Hc, Ha, Hv, Ho.
  unfold mean_score. rewrite abs_spec, sub_spec, div_spec, !add_spec.
  replace (Prim2SF 3) with (S754_finite false 6755399441055744 (-51))
    by (vm_compute; reflexivity).
  apply SFabs_not_nan, SFsub_not_nan; [exact Ho|].
  apply SFdiv_not_nan, SFadd_not_nan; [|exact Hv].
  apply SFadd_not_nan; [|exact Ha]. now apply finite_not_nan.
Qed.

(** On scores in range the validator's test [abs(v - calculated) > 0.01]
    is the negation of [abs(v - calculated) <= 0.01]. *)
Lemma tolerance_test (overall completeness accuracy validity : float) :
  score_in_range completeness = true -> score_in_range accuracy = true ->
  score_in_range validity = true -> score_in_range overall = true ->
  (score_tolerance <? abs (overall - mean_score completeness accuracy validity))
  = negb (overall_within_tolerance overall completeness accuracy validity).
Proof.
  intros Hc Ha Hv Ho. unfold overall_within_tolerance.
  apply ltb_negb_leb; [vm_compute; reflexivity|].
  now apply difference_not_nan.
Qed.

Lemma validate_score_return (v : float) :
  validate_score v = (if score_in_range v then Return v
                      else if 0 <=? v
                           then Raise "ensure this value is less than or equal to 100"
                           else Raise "ensure this value is greater than or equal to 0").
Proof.
  unfold validate_score, score_in_range.
  destruct (0 <=? v); simpl; [|reflexivity]. now destruct (v <=? 100).
Qed.

(** C8.  A [ClaimQualityMetrics] is constructed only when each of the four
    scores lies in [[0, 100]] and [overall_score] differs from the mean of
    the three others by at most 0.01, in binary64 arithmetic: the record the
    constructor returns passes all five checks, and arguments that fail
    one make it fail with a [ValidationError]. *)
Theorem quality_metrics_checked_at_construction (utcnow : datetime)
    (a : ClaimQualityMetricsArgs) :
  (forall m, ClaimQualityMetrics_init utcnow a = Valid m ->
     score_in_range (completeness_score m) = true
     /\ score_in_range (accuracy_score m) = true
     /\ score_in_range (validity_score m) = true
     /\ score_in_range (overall_score m) = true
     /\ overall_within_tolerance (overall_score m) (completeness_score m)
          (accuracy_score m) (validity_score m) = true
     /\ completeness_score m = arg_completeness_score a
     /\ accuracy_score m = arg_accuracy_score a
     /\ validity_score m = arg_validity_score a
     /\ overall_score m = arg_overall_score a)
  /\ (scores_consistent (arg_completeness_score a) (arg_accuracy_score a)
        (arg_validity_score a) (arg_overall_score a) = false ->
      exists errors, ClaimQualityMetrics_init utcnow a = ValidationError errors
                     /\ errors <> []).
Proof.
  unfold ClaimQualityMetrics_init, scores_consistent, calculate_overall_score.
  rewrite !validate_score_return.
  destruct (score_in_range (arg_completeness_score a)) eqn:Hc;
  destruct (score_in_range (arg_accuracy_score a)) eqn:Ha;
  destruct (score_in_range (arg_validity_score a)) eqn:Hv;
  destruct (score_in_range (arg_overall_score a)) eqn:Ho;
  cbn [validated_value and_then andb].
  1: rewrite (tolerance_test _ _ _ _ Hc Ha Hv Ho);
     destruct (overall_within_tolerance _ _ _ _) eqn:Ht; cbn [negb andb].
  all: repeat match goal with
         | |- context [if ?b then _ else _] => destruct b
         end.
  all: split;
    [ intros m Hm; try discriminate Hm
    | intros Hbad; try discriminate Hbad;
      try (eexists; split; [reflexivity|discriminate]) ].
  injection Hm; intros <-. cbn. repeat split; assumption.
Qed.

Lemma quality_metrics_witness :
  exists m, ClaimQualityMetrics_init sample_now (sample_metrics_args 80) = Valid m
            /\ overall_within_tolerance (overall_score m) (completeness_score m)
                 (accuracy_score m) (validity_score m) = true.
Proof.
  eexists. split; [vm_compute; reflexivity|].
  apply (proj1 (quality_metrics_checked_at_construction sample_now (sample_metrics_args 80))).
  vm_compute; reflexivity.
Defined.

End QualityMetricsFacts.

(** ** Further properties of the schema and of the gates *)


(** A claim without lines is never constructed, whatever the other
    arguments are; the error names [claim_lines]. *)
Theorem empty_claim_lines_fail_construction (uuid4 : string) (utcnow : datetime)
    (a : MedicalClaimArgs) :
  arg_claim_lines a = [] ->
  exists errors,
    MedicalClaim_init uuid4 utcnow a = ValidationError errors
    /\ In {| loc := "claim_lines"; msg := "Claim must have at least one line item" |} errors.
Proof.
  intros H. unfold MedicalClaim_init. rewrite H. cbn [validate_claim_lines].
  eexists. split; [reflexivity|]. left. reflexivity.
Qed.

Lemma empty_claim_lines_witness :
  exists errors,
    MedicalClaim_init "claim-1" sample_now (sample_args [] 0) = ValidationError errors
    /\ In {| loc := "claim_lines"; msg := "Claim must have at least one line item" |} errors.
Proof.
  apply (empty_claim_lines_fail_construction "claim-1" sample_now (sample_args [] 0)).
  reflexivity.
Defined.

(** The scenario of the specification: the claim with one line billed at
    150.00 and a total of 150.00 is constructed; with the line's amount
    changed to 200.00, [calculate_totals] sets the total to 200.00 and
    leaves [patient_responsibility] unset. *)
Theorem scenario_line_edit_then_calculate_totals :
  MedicalClaim_init "claim-1" sample_now
    (sample_args [sample_line (150 # 1) None None] (150 # 1)) = Valid example_claim
  /\ exists c,
       calculate_totals
         (with_claim_lines example_claim [sample_line (200 # 1) None None]) = Valid c
       /\ total_billed_amount c = 200 # 1
       /\ total_allowed_amount c = None
       /\ total_paid_amount c = None
       /\ patient_responsibility c = None.
Proof.
  split; [reflexivity|].
  eexists. split; [reflexivity|]. repeat split; reflexivity.
Qed.

(** A batch the constructor returns is not empty, its [total_claims] is the
    number of its claims, and its billed total is within 0.01 of the sum of
    the claims' totals. *)
Theorem ClaimBatch_init_invariants (uuid4 : string) (utcnow : datetime)
    (batch_id : option string) (batch_number : string) (batch_claims : list MedicalClaim)
    (batch_date : option datetime) (source_system : string) (n : Z) (billed : Decimal)
    (b : ClaimBatch) :
  ClaimBatch_init uuid4 utcnow batch_id batch_number batch_claims batch_date
    source_system n billed = Valid b ->
  claims b <> []
  /\ total_claims b = Z.of_nat (List.length (claims b))
  /\ Qabs (batch_total_billed_amount b - py_sum (map total_billed_amount (claims b)))
     <= tolerance.
Proof.
  unfold ClaimBatch_init.
  destruct batch_claims as [|c cs]; [discriminate|].
  cbn [validate_claims validated_value validate_total_claims
       validate_total_billed_amount].
  destruct (n =? _)%Z eqn:Hn; cbn [negb]; [|destruct (dec_gt _ _); discriminate].
  destruct (dec_gt _ tolerance) eqn:Ht; [discriminate|].
  intros [= <-]. cbn [claims total_claims batch_total_billed_amount].
  split; [discriminate|]. split; [now apply Z.eqb_eq|now apply dec_gt_false_le].
Qed.

Lemma ClaimBatch_init_witness :
  total_claims (sample_batch [example_claim]) = 1%Z
  /\ Qabs (batch_total_billed_amount (sample_batch [example_claim])
           - py_sum (map total_billed_amount (claims (sample_batch [example_claim]))))
     <= tolerance.
Proof.
  apply (ClaimBatch_init_invariants "batch-1" sample_now None "B001" [example_claim]
           (Some sample_now) "billing" 1 (0 + 150 # 1) (sample_batch [example_claim])).
  reflexivity.
Defined.

(** X5.  A patient is constructed exactly when the gender is one of M, F, O and
    U; otherwise the [ValidationError] names the [gender] field.  So "X"
    fails and "M" succeeds. *)
Theorem patient_gender_is_checked (patient_id member_id first_name last_name : string)
    (date_of_birth : datetime) (g : string) (address : pydict string)
    (phone : option string) :
  (In g valid_genders ->
   exists p, Patient_init patient_id member_id first_name last_name date_of_birth g
               address phone = Valid p
             /\ gender p = g)
  /\ (~ In g valid_genders ->
      exists m, Patient_init patient_id member_id first_name last_name date_of_birth g
                  address phone = ValidationError [{| loc := "gender"; msg := m |}]).
Proof.
  unfold Patient_init, validate_gender.
  destruct (existsb (String.eqb g) valid_genders) eqn:He.
  - split; [eexists; split; reflexivity|].
    intros Hn. exfalso. apply Hn.
    apply existsb_exists in He as (x & Hx & Heq). apply String.eqb_eq in Heq. now subst.
  - split; [|eexists; reflexivity].
    intros Hin. exfalso.
    assert (Ht : existsb (String.eqb g) valid_genders = true).
    { apply existsb_exists. exists g. split; [exact Hin|apply String.eqb_refl]. }
    congruence.
Qed.

Lemma patient_gender_witness :
  (exists p, Patient_init "PAT001" "MEM001" "John" "Doe" 315532800000000%Z "M" [] None
             = Valid p /\ gender p = "M")
  /\ (exists m, Patient_init "PAT001" "MEM001" "John" "Doe" 315532800000000%Z "X" [] None
                = ValidationError [{| loc := "gender"; msg := m |}]).
Proof.
  split.
  - apply (proj1 (patient_gender_is_checked "PAT001" "MEM001" "John" "Doe"
                    315532800000000%Z "M" [] None)).
    left. reflexivity.
  - apply (proj2 (patient_gender_is_checked "PAT001" "MEM001" "John" "Doe"
                    315532800000000%Z "X" [] None)).
    intros [H|[H|[H|[H|[]]]]]; discriminate H.
Defined.

(** X6.  The amounts of a line the constructor returns are not negative. *)
Theorem ClaimLine_init_amounts_nonnegative (uuid4 : string) (id : option string)
    (pc : ProcedureCode) (dx : list DiagnosisCode) (date : datetime)
    (billed : Decimal) (allowed paid : option Decimal) (place rendering : string)
    (line : ClaimLine) :
  ClaimLine_init uuid4 id pc dx date billed allowed paid place rendering = Valid line ->
  0 <= billed_amount line
  /\ nonneg_opt (allowed_amount line)
  /\ nonneg_opt (paid_amount line)
  /\ line_valid line.
Proof.
  unfold ClaimLine_init, line_valid.
  assert (Hret : forall v r, validate_amounts v = Return r -> r = v /\ nonneg_opt v).
  { intros [q|] r; simpl; [|intros [= <-]; auto].
    destruct (dec_lt q 0) eqn:Hq; [discriminate|].
    intros [= <-]. split; [reflexivity|]. now apply dec_lt_false_le. }
  destruct (validate_amounts (Some billed)) as [b|] eqn:Hb; [|discriminate].
  destruct (validate_amounts allowed) as [al|] eqn:Ha; [|discriminate].
  destruct (validate_amounts paid) as [pd|] eqn:Hp; [|discriminate].
  intros [= <-]. cbn [billed_amount allowed_amount paid_amount].
  destruct (Hret _ _ Hb) as [-> Hb0], (Hret _ _ Ha) as [-> Ha0], (Hret _ _ Hp) as [-> Hp0].
  rewrite Hb, Ha, Hp. repeat split; assumption.
Qed.

Lemma ClaimLine_init_witness :
  0 <= billed_amount (sample_line (150 # 1) (Some (120 # 1)) None)
  /\ nonneg_opt (allowed_amount (sample_line (150 # 1) (Some (120 # 1)) None)).
Proof.
  destruct (ClaimLine_init_amounts_nonnegative "line-1" None
              (procedure_code (sample_line (150 # 1) None None))
              (diagnosis_codes (sample_line (150 # 1) None None))
              aug_1_2023 (150 # 1) (Some (120 # 1)) None "11" "PROV001"
              (sample_line (150 # 1) (Some (120 # 1)) None) eq_refl) as (H1 & H2 & _).
  split; assumption.
Defined.

(** * Further properties *)

(** ** Sums of amounts *)











(** ** What the constructor of a claim accepts *)

Lemma validate_total_amounts_accepts (v : option Decimal) :
  nonneg_opt v -> validate_total_amounts v = Return v.
Proof.
  destruct v as [q|]; simpl; [|reflexivity].
  intros H. apply dec_lt_false_le in H. now rewrite H.
Qed.

Lemma validate_total_amounts_raises (v : option Decimal) (m : string) :
  validate_total_amounts v = Raise m -> ~ nonneg_opt v.
Proof.
  intros H Hn. rewrite (validate_total_amounts_accepts v Hn) in H. discriminate.
Qed.

(** The claim the constructor returns carries the arguments, with the
    defaults filled in. *)
Lemma MedicalClaim_init_fields (uuid4 : string) (utcnow : datetime)
    (a : MedicalClaimArgs) (c : MedicalClaim) :
  MedicalClaim_init uuid4 utcnow a = Valid c ->
  claim_id c = Some (default (arg_claim_id a) uuid4)
  /\ claim_number c = Some (arg_claim_number a)
  /\ claim_status c = default (arg_claim_status a) SUBMITTED
  /\ patient c = Some (arg_patient a)
  /\ insurance c = Some (arg_insurance a)
  /\ provider c = Some (arg_provider a)
  /\ date_of_service c = arg_date_of_service a
  /\ claim_received_date c = default (arg_claim_received_date a) utcnow
  /\ attachments c = default (arg_attachments a) []
  /\ metadata c = default (arg_metadata a) [].
Proof.
  unfold MedicalClaim_init.
  destruct (validate_claim_lines _); [|discriminate].
  destruct (total_billed_amount_validators _ _); [|destruct (validate_total_amounts _),
    (validate_total_amounts _), (validate_total_amounts _); discriminate].
  destruct (validate_total_amounts (arg_total_allowed_amount a)); [|discriminate].
  destruct (validate_total_amounts (arg_total_paid_amount a)); [|discriminate].
  destruct (validate_total_amounts (arg_patient_responsibility a)); [|discriminate].
  intros [= <-]. cbn. repeat split.
Qed.







(** ** What [calculate_totals] establishes *)








(** ** The order of the lines *)







(** ** High-value claims *)



(** ** Constructed claims at the gates *)




(** X14.  The verdict of the gates depends on the clock only through
    whether it has reached the service date: before that date the claim is
    refused, and from that date on the verdict is the same at every
    reading.  So a claim that passes at one reading passes at every later
    one. *)
Theorem gates_and_the_clock (claim : MedicalClaim) (t t' : datetime) :
  ((t < date_of_service claim)%Z -> _validate_claim t claim = false)
  /\ ((date_of_service claim <= t)%Z -> (date_of_service claim <= t')%Z ->
      _validate_claim t claim = _validate_claim t' claim)
  /\ ((t <= t')%Z -> _validate_claim t claim = true -> _validate_claim t' claim = true).
Proof.
  assert (Hbefore : forall u, (u < date_of_service claim)%Z ->
                              _validate_claim u claim = false).
  { intros u Hu. apply gate_fails_rejects. unfold gate_fails. do 9 right. exact Hu. }
  assert (Hafter : forall u u', (date_of_service claim <= u)%Z ->
                                (date_of_service claim <= u')%Z ->
                                _validate_claim u claim = _validate_claim u' claim).
  { intros u u' Hu Hu'. unfold _validate_claim.
    apply Z.ltb_ge in Hu, Hu'. now rewrite Hu, Hu'. }
  split; [apply Hbefore|]. split; [apply Hafter|].
  intros Hle Hp.
  destruct (Z_lt_le_dec t (date_of_service claim)) as [Hlt|Hge].
  - rewrite (Hbefore t Hlt) in Hp. discriminate.
  - rewrite <- (Hafter t t' Hge); [exact Hp|lia].
Qed.

Lemma gates_and_the_clock_witness :
  _validate_claim sample_now future_claim = false
  /\ _validate_claim (sample_now + one_second)%Z future_claim = true
  /\ _validate_claim (sample_now + 2 * one_second)%Z future_claim = true.
Proof.
  pose proof (gates_and_the_clock future_claim sample_now (sample_now + one_second)%Z)
    as (H1 & _ & _).
  pose proof (gates_and_the_clock future_claim (sample_now + one_second)%Z
                (sample_now + 2 * one_second)%Z) as (_ & _ & H3).
  split; [apply H1; reflexivity|]. split; [reflexivity|].
  apply H3; [now vm_compute|reflexivity].
Defined.

(** ** Constructing a claim again *)

(** X15.  Validation changes nothing in what it accepts: the fields of a
    claim the constructor returned, passed to the constructor again, give
    the same claim back, whatever the id supply and the clock are then. *)
Theorem reconstruction_returns_the_same_claim (uuid4 uuid4' : string)
    (utcnow utcnow' : datetime) (a : MedicalClaimArgs) (c : MedicalClaim) :
  MedicalClaim_init uuid4 utcnow a = Valid c ->
  MedicalClaim_init uuid4' utcnow'
    (args_of_claim c (arg_patient a) (arg_insurance a) (arg_provider a)
       (arg_claim_number a)) = Valid c.
Proof.
  intros H.
  destruct (MedicalClaim_init_fields uuid4 utcnow a c H)
    as (Hid & Hnum & Hst & Hpat & Hins & Hprov & Hdate & Hrec & Hatt & Hmeta).
  pose proof (MedicalClaim_init_invariants _ _ _ _ H)
    as (Hne & Htol & Hpos & Ha & Hp & Hr).
  unfold MedicalClaim_init, total_billed_amount_validators.
  cbn [args_of_claim arg_claim_lines arg_total_billed_amount arg_total_allowed_amount
       arg_total_paid_amount arg_patient_responsibility arg_claim_id arg_claim_number
       arg_claim_type arg_claim_status arg_patient arg_insurance arg_provider
       arg_date_of_service arg_claim_received_date arg_claim_processed_date arg_notes
       arg_attachments arg_metadata default].
  destruct (claim_lines c) as [|l ls] eqn:Hl; [congruence|].
  cbn [validate_claim_lines validated_value validate_total_amounts and_then
       validate_total_billed_matches_lines].
  apply dec_lt_false_le in Hpos. rewrite Hpos. cbn [and_then].
  apply dec_gt_false_le in Htol. rewrite Htol.
  rewrite (validate_total_amounts_accepts _ Ha), (validate_total_amounts_accepts _ Hp),
    (validate_total_amounts_accepts _ Hr).
  f_equal. rewrite <- Hl. destruct c; cbn in *.
  rewrite Hid, Hnum, Hpat, Hins, Hprov. reflexivity.
Qed.

Lemma reconstruction_witness :
  MedicalClaim_init "another-id" 0%Z
    (args_of_claim example_claim sample_patient sample_insurance sample_provider "CLM001")
  = Valid example_claim.
Proof.
  apply (reconstruction_returns_the_same_claim "claim-1" "another-id" sample_now 0%Z
           (sample_args [sample_line (150 # 1) None None] (150 # 1)) example_claim).
  reflexivity.
Defined.

(** ** What a batch hands to the client *)







(** ** The tally of a batch and the statistics *)

Lemma send_claim_result (env : Env) (p : ClaimsProducer) (claim : MedicalClaim)
    (topic : option string) :
  fst (send_claim env p claim topic)
  = match outcome_of env p claim with delivered => true | _ => false end.
Proof.
  unfold send_claim, outcome_of. destruct (negb _); [reflexivity|].
  cbv zeta. cbn [next_call submitted]. now destruct (respond env _).
Qed.

Lemma outcome_rejected_iff (env : Env) (p : ClaimsProducer) (claim : MedicalClaim) :
  outcome_of env p claim = rejected
  <-> _validate_claim (utcnow_at env (calls p)) claim = false.
Proof.
  unfold outcome_of. destruct (_validate_claim _ claim); cbn [negb].
  - split; [|discriminate]. now destruct (respond env _).
  - now split.
Qed.

Lemma batch_loop_statistics (env : Env) (target : string) (l : list MedicalClaim)
    (p : ClaimsProducer) (r0 : BatchResults) :
  callbacks p = [on_send_success; on_send_error] ->
  let r := fst (batch_loop (try_send_claim env target) p l r0) in
  let p' := snd (batch_loop (try_send_claim env target) p l r0) in
  (messages_sent (stats p')
   = messages_sent (stats p)
     + (if runs_callbacks env then successful r - successful r0 else 0)
   /\ messages_failed (stats p')
      = messages_failed (stats p)
        + (failed r - failed r0 - rejected_count env (calls p) l)
        + (if runs_callbacks env then successful r - successful r0 else 0))%Z.
Proof.
  revert p r0. induction l as [|claim rest IH]; intros p r0 Hcb;
    cbn [batch_loop rejected_count].
  - cbn [fst snd]. destruct (runs_callbacks env); lia.
  - assert (Htry : try_send_claim env target p claim
                   = (Return (fst (send_claim env p claim (Some target))),
                      snd (send_claim env p claim (Some target)))).
    { unfold try_send_claim. now destruct (send_claim env p claim (Some target)). }
    rewrite Htry. clear Htry.
    pose proof (send_claim_statistics env p claim (Some target) Hcb) as Hst.
    pose proof (send_claim_result env p claim (Some target)) as Hres.
    pose proof (send_claim_callbacks env p claim (Some target)) as Hcb1.
    pose proof (send_claim_calls env p claim (Some target)) as Hc.
    pose proof (outcome_rejected_iff env p claim) as Hrej.
    destruct (send_claim env p claim (Some target)) as [sent p1].
    cbn [fst snd] in *. cbv zeta in Hst. destruct Hst as [Hs Hf].
    rewrite Hcb in Hcb1. subst sent.
    assert (Hv : _validate_claim (utcnow_at env (calls p)) claim
                 = match outcome_of env p claim with rejected => false | _ => true end).
    { destruct (_validate_claim _ claim) eqn:Hval.
      - destruct (outcome_of env p claim); try reflexivity.
        destruct Hrej as [Hrej _]. now specialize (Hrej eq_refl).
      - destruct Hrej as [_ Hrej]. now rewrite (Hrej eq_refl). }
    rewrite Hv. unfold sent_increment, failed_increment in Hs, Hf.
    destruct (outcome_of env p claim);
      match goal with
      | |- context [batch_loop _ p1 rest ?r1] => specialize (IH p1 r1 Hcb1)
      end;
      cbv zeta in IH; destruct IH as [IHs IHf]; rewrite Hc in IHf; cbv zeta;
      rewrite IHs, IHf, Hs, Hf;
      cbn [total successful failed count_successful count_failure];
      destruct (runs_callbacks env); lia.
Qed.

(** X17.  The tally of a batch and the statistics count different things.
    The claims the gates refuse are in the tally's [failed] and never in
    [messages_failed]: after a batch through a freshly configured producer,
    [messages_failed] has grown by [failed] less the refused claims, plus
    [successful] when the client runs the registered callbacks, and
    [messages_sent] has grown by [successful] in that case and not at all
    otherwise. *)
Theorem batch_tally_against_statistics (env : Env) (self p : ClaimsProducer)
    (batch : ClaimBatch) (topic : option string) (r : BatchResults) :
  callbacks self = [on_send_success; on_send_error] ->
  send_claim_batch env self batch topic = Some (r, p) ->
  (messages_sent (get_stats p)
   = messages_sent (get_stats self) + (if runs_callbacks env then successful r else 0)
   /\ messages_failed (get_stats p)
      = messages_failed (get_stats self)
        + (failed r - rejected_count env (calls self) (claims batch))
        + (if runs_callbacks env then successful r else 0))%Z.
Proof.
  intros Hcb. unfold send_claim_batch, get_stats.
  set (r0 := {| total := _; successful := 0; failed := 0 |}).
  pose proof (batch_loop_statistics env (str_or topic topic_raw) (claims batch) self r0 Hcb)
    as Hst.
  destruct (batch_loop _ self (claims batch) r0) as [r1 p1].
  cbv zeta in Hst. cbn [fst snd successful failed r0] in Hst. destruct Hst as [Hs Hf].
  unfold flush. intros H.
  assert (Hp : stats p = stats p1 /\ r = r1).
  { destruct (in_flight p1).
    - injection H; intros <- <-. now split.
    - destruct (drains env); [|discriminate]. injection H; intros <- <-. now split. }
  destruct Hp as [-> ->]. rewrite Hs, Hf.
  destruct (runs_callbacks env); split; lia.
Qed.

Lemma batch_tally_against_statistics_witness :
  exists r p,
    send_claim_batch (env_of KafkaTimeout true) ClaimsProducer_init
      (sample_batch [example_claim; future_claim; example_claim]) None = Some (r, p)
    /\ failed r = 3%Z
    /\ messages_failed (get_stats p) = 2%Z.
Proof.
  destruct (send_claim_batch (env_of KafkaTimeout true) ClaimsProducer_init
              (sample_batch [example_claim; future_claim; example_claim]) None)
    as [[r p]|] eqn:H.
  - destruct (batch_tally_against_statistics _ ClaimsProducer_init p _ None r eq_refl H)
      as [_ Hf].
    exists r, p. split; [reflexivity|].
    assert (Hr : failed r = 3%Z /\ successful r = 0%Z).
    { revert H. vm_compute. now intros [= <- _]. }
    destruct Hr as [Hr Hs].
    split; [exact Hr|]. rewrite Hf, Hr, Hs. reflexivity.
  - exfalso. revert H. vm_compute. discriminate.
Defined.

(** ** The error log *)

Lemma send_claim_errors (env : Env) (p : ClaimsProducer) (claim : MedicalClaim)
    (topic : option string) :
  callbacks p = [on_send_success; on_send_error] ->
  Z.of_nat (List.length (errors (stats (snd (send_claim env p claim topic)))))
  = (Z.of_nat (List.length (errors (stats p)))
     + sent_increment env (outcome_of env p claim))%Z.
Proof.
  intros Hcb. unfold send_claim, outcome_of, sent_increment.
  destruct (negb _); cbn; [lia|].
  destruct (respond env _); cbn; try lia.
  unfold acknowledge. rewrite Hcb. destruct (runs_callbacks env); cbn; [|lia].
  rewrite length_app. cbn. lia.
Qed.

Lemma publish_all_errors (env : Env) (l : list MedicalClaim) (p : ClaimsProducer) :
  callbacks p = [on_send_success; on_send_error] ->
  Z.of_nat (List.length (errors (stats (snd (publish_all env p l)))))
  = (Z.of_nat (List.length (errors (stats p)))
     + (if runs_callbacks env then count_delivered (fst (publish_all env p l)) else 0))%Z.
Proof.
  revert p. induction l as [|claim rest IH]; intros p Hcb; cbn [publish_all].
  - cbn [fst snd count_delivered]. destruct (runs_callbacks env); lia.
  - pose proof (send_claim_errors env p claim None Hcb) as He.
    specialize (IH (snd (send_claim env p claim None))).
    rewrite send_claim_callbacks in IH. specialize (IH Hcb).
    destruct (publish_all env (snd (send_claim env p claim None)) rest) as [os p'].
    cbn [fst snd] in *. rewrite IH, He. unfold sent_increment.
    destruct (outcome_of env p claim), (runs_callbacks env);
      cbn [count_delivered]; lia.
Qed.

(** X18.  The error log does not record the sends that fail.  The [except]
    blocks of [send_claim] count a timeout or a failure and keep no text of
    it; entries are added by [_on_send_error] only, which runs, when the
    client runs the registered callbacks, for the acknowledged sends.  So
    after any sequence of sends through a fresh producer the log has as
    many entries as [messages_sent] counts, and none when no send was
    acknowledged. *)
Theorem error_log_after_publishing (env : Env) (l : list MedicalClaim) :
  let os := fst (publish_all env ClaimsProducer_init l) in
  let s := get_stats (snd (publish_all env ClaimsProducer_init l)) in
  Z.of_nat (List.length (errors s)) = messages_sent s
  /\ (count_delivered os = 0%Z -> errors s = []).
Proof.
  cbv zeta. pose proof (publish_all_errors env l ClaimsProducer_init eq_refl) as He.
  pose proof (publish_all_statistics env l ClaimsProducer_init eq_refl) as [Hs _].
  unfold get_stats in *. cbn [ClaimsProducer_init stats fresh_stats errors messages_sent
                              List.length] in He, Hs.
  split; [lia|].
  intros H0. rewrite H0 in He.
  destruct (errors (stats (snd (publish_all env ClaimsProducer_init l)))); [reflexivity|].
  cbn [List.length] in He. destruct (runs_callbacks env); lia.
Qed.

Lemma error_log_witness :
  errors (get_stats (snd (publish_all (env_of KafkaTimeout true) ClaimsProducer_init
                            [example_claim; example_claim]))) = [].
Proof.
  apply (proj2 (error_log_after_publishing (env_of KafkaTimeout true)
                  [example_claim; example_claim])).
  reflexivity.
Defined.

(** ** Alerts *)



(** ** Dictionaries *)

Lemma dict_get_set_same {V : Type} (k : string) (v : V) (d : pydict V) :
  dict_get k (dict_set k v d) = Some v.
Proof.
  induction d as [|[k' v'] d IH]; cbn.
  - now rewrite String.eqb_refl.
  - destruct (String.eqb k' k) eqn:E; cbn; rewrite E; [reflexivity|exact IH].
Qed.

Lemma dict_get_set_other {V : Type} (k k' : string) (v : V) (d : pydict V) :
  k <> k' -> dict_get k' (dict_set k v d) = dict_get k' d.
Proof.
  intros Hne. induction d as [|[k0 v0] d IH]; cbn.
  - apply String.eqb_neq in Hne. now rewrite Hne.
  - destruct (String.eqb k0 k) eqn:E; cbn.
    + apply String.eqb_eq in E. subst k0.
      apply String.eqb_neq in Hne. now rewrite Hne.
    + destruct (String.eqb k0 k'); [reflexivity|exact IH].
Qed.

Lemma dict_set_not_empty {V : Type} (k : string) (v : V) (d : pydict V) :
  dict_set k v d <> [].
Proof.
  destruct d as [|[k' v'] d]; cbn; [discriminate|].
  destruct (String.eqb k' k); discriminate.
Qed.

Lemma dict_get_app {V : Type} (k : string) (d d' : pydict V) :
  dict_get k (d ++ d') = match dict_get k d with Some v => Some v | None => dict_get k d' end.
Proof.
  induction d as [|[k0 v0] d IH]; cbn; [reflexivity|].
  destruct (String.eqb k0 k); [reflexivity|exact IH].
Qed.

(** After [d.update(other)] a key has the value [other] gives it, the last
    if [other] lists it twice, and otherwise the value it had in [d]. *)
Lemma dict_get_update {V : Type} (k : string) (other d : pydict V) :
  dict_get k (dict_update d other)
  = match dict_get k (rev other) with Some v => Some v | None => dict_get k d end.
Proof.
  unfold dict_update. revert d. induction other as [|[k0 v0] other IH]; intros d; cbn.
  - reflexivity.
  - rewrite IH, dict_get_app. destruct (dict_get k (rev other)); [reflexivity|].
    cbn. destruct (String.eqb k0 k) eqn:E.
    + apply String.eqb_eq in E. subst k0. apply dict_get_set_same.
    + apply String.eqb_neq in E. now apply dict_get_set_other.
Qed.

Lemma dict_update_not_empty {V : Type} (d other : pydict V) :
  other <> [] -> dict_update d other <> [].
Proof.
  unfold dict_update. revert d. induction other as [|[k0 v0] other IH]; intros d H;
    [congruence|].
  cbn. destruct other as [|kv other'].
  - cbn. apply dict_set_not_empty.
  - apply IH. discriminate.
Qed.

(** ** The factory *)

Lemma env_configs_tables (e : string) (table : pydict pyvalue) :
  dict_get e env_configs = Some table ->
  table <> []
  /\ (forall k, In k settings_keys -> dict_get k (rev table) = dict_get k table)
  /\ (forall k, In k settings_keys -> dict_get k table <> None)
  /\ (forall k, ~ In k settings_keys -> dict_get k (rev table) = None).
Proof.
  unfold env_configs. cbn [dict_get].
  destruct (String.eqb "dev" e); [|destruct (String.eqb "staging" e);
    [|destruct (String.eqb "prod" e); [|discriminate]]].
  all: intros [= <-]; split; [discriminate|]; split; [|split].
  all: try (intros k [<-|[<-|[<-|[<-|[]]]]]; vm_compute;
            first [reflexivity|discriminate]).
  all: intros k Hk; cbn [rev app dict_get];
    repeat match goal with
           | |- context [String.eqb ?a k] =>
               let E := fresh "E" in
               destruct (String.eqb a k) eqn:E;
               [apply String.eqb_eq in E; subst k; exfalso; apply Hk; cbn; tauto|]
           end; reflexivity.
Qed.

(** X20.  For a known environment the table of the factory wins over the
    configuration passed as an override: the producer's servers and three
    topics are those of the environment's table whatever the configuration
    holds for them, the caller's dict holds the table's values for these
    four keys after the call, and its other entries are untouched. *)
Theorem known_environment_overrides_the_config (get_config : pydict pyvalue)
    (e : string) (config : option (pydict pyvalue)) (table : pydict pyvalue) :
  dict_get e env_configs = Some table ->
  let settings := fst (create_producer get_config (Some e) config) in
  let final := snd (create_producer get_config (Some e) config) in
  let passed := match config with Some d => d | None => get_config end in
  Some (bootstrap_servers settings) = dict_get "kafka.bootstrap_servers" table
  /\ Some (settings_topic_raw settings) = dict_get "kafka.topics.raw" table
  /\ Some (topic_validated settings) = dict_get "kafka.topics.validated" table
  /\ Some (topic_alerts settings) = dict_get "kafka.topics.alerts" table
  /\ (forall k, In k settings_keys -> dict_get k final = dict_get k table)
  /\ (forall k, ~ In k settings_keys -> dict_get k final = dict_get k passed).
Proof.
  intros Ht. destruct (env_configs_tables e table Ht) as (Hne & Hrev & Hsome & Hnone).
  cbv zeta. unfold create_producer, dict_mem, dict_get_default. rewrite Ht. cbn [fst snd].
  set (passed := match config with Some d => d | None => get_config end).
  assert (Hin : forall k, In k settings_keys ->
                          dict_get k (dict_update passed table) = dict_get k table).
  { intros k Hk. rewrite dict_get_update, (Hrev k Hk).
    destruct (dict_get k table) eqn:E; [reflexivity|]. now destruct (Hsome k Hk). }
  unfold ClaimsProducer_settings, dict_get_default.
  pose proof (dict_update_not_empty passed table Hne) as Hfin.
  destruct (dict_update passed table) as [|kv rest] eqn:Hu; [congruence|].
  cbn [bootstrap_servers settings_topic_raw topic_validated topic_alerts].
  assert (Hk1 : In "kafka.bootstrap_servers" settings_keys) by (cbn; tauto).
  assert (Hk2 : In "kafka.topics.raw" settings_keys) by (cbn; tauto).
  assert (Hk3 : In "kafka.topics.validated" settings_keys) by (cbn; tauto).
  assert (Hk4 : In "kafka.topics.alerts" settings_keys) by (cbn; tauto).
  rewrite (Hin _ Hk1), (Hin _ Hk2), (Hin _ Hk3), (Hin _ Hk4).
  pose proof (Hsome _ Hk1). pose proof (Hsome _ Hk2).
  pose proof (Hsome _ Hk3). pose proof (Hsome _ Hk4).
  destruct (dict_get "kafka.bootstrap_servers" table); [|congruence].
  destruct (dict_get "kafka.topics.raw" table); [|congruence].
  destruct (dict_get "kafka.topics.validated" table); [|congruence].
  destruct (dict_get "kafka.topics.alerts" table); [|congruence].
  repeat split; auto.
  intros k Hk. rewrite <- Hu, dict_get_update, (Hnone k Hk). reflexivity.
Qed.

Lemma known_environment_witness :
  settings_topic_raw
    (fst (create_producer [] (Some "staging")
            (Some [("kafka.topics.raw", PyStr "my-topic"); ("acks", PyStr "1")])))
  = PyStr "medical-claims-raw-staging"
  /\ dict_get "acks"
       (snd (create_producer [] (Some "staging")
               (Some [("kafka.topics.raw", PyStr "my-topic"); ("acks", PyStr "1")])))
     = Some (PyStr "1").
Proof.
  destruct (known_environment_overrides_the_config [] "staging"
              (Some [("kafka.topics.raw", PyStr "my-topic"); ("acks", PyStr "1")])
              _ eq_refl) as (_ & H2 & _ & _ & _ & H6).
  split.
  - exact (f_equal (fun o => match o with Some v => v | None => PyNone end) H2).
  - rewrite H6; [reflexivity|].
    cbn. intros [H|[H|[H|[H|[]]]]]; discriminate H.
Defined.

(** X21.  An environment name the factory does not know is no error: the
    configuration is used and left as it is.  When it holds none of the
    four keys, the producer gets the built-in defaults: the broker address
    of the development table with the topic names of the production
    table. *)
Theorem unknown_environment_falls_back_to_defaults (get_config : pydict pyvalue)
    (e : string) (config : option (pydict pyvalue)) :
  dict_get e env_configs = None ->
  (forall k, In k settings_keys -> dict_get k get_config = None) ->
  (forall d k, config = Some d -> In k settings_keys -> dict_get k d = None) ->
  let settings := fst (create_producer get_config (Some e) config) in
  let dev := dict_get_default "dev" env_configs [] in
  let prod := dict_get_default "prod" env_configs [] in
  snd (create_producer get_config (Some e) config)
  = match config with Some d => d | None => get_config end
  /\ dict_get "kafka.bootstrap_servers" dev = Some (bootstrap_servers settings)
  /\ dict_get "kafka.topics.raw" prod = Some (settings_topic_raw settings)
  /\ dict_get "kafka.topics.validated" prod = Some (topic_validated settings)
  /\ dict_get "kafka.topics.alerts" prod = Some (topic_alerts settings).
Proof.
  intros He Hg Hc. cbv zeta.
  unfold create_producer, dict_mem. rewrite He. cbn [fst snd].
  assert (Hk1 : In "kafka.bootstrap_servers" settings_keys) by (cbn; tauto).
  assert (Hk2 : In "kafka.topics.raw" settings_keys) by (cbn; tauto).
  assert (Hk3 : In "kafka.topics.validated" settings_keys) by (cbn; tauto).
  assert (Hk4 : In "kafka.topics.alerts" settings_keys) by (cbn; tauto).
  change (dict_get "kafka.bootstrap_servers" (dict_get_default "dev" env_configs []))
    with (Some (PyStr "localhost:9092")).
  change (dict_get "kafka.topics.raw" (dict_get_default "prod" env_configs []))
    with (Some (PyStr "medical-claims-raw")).
  change (dict_get "kafka.topics.validated" (dict_get_default "prod" env_configs []))
    with (Some (PyStr "medical-claims-validated")).
  change (dict_get "kafka.topics.alerts" (dict_get_default "prod" env_configs []))
    with (Some (PyStr "medical-claims-alerts")).
  unfold ClaimsProducer_settings, dict_get_default.
  destruct config as [[|kv d]|];
    cbn [bootstrap_servers settings_topic_raw topic_validated topic_alerts].
  - rewrite (Hg _ Hk1), (Hg _ Hk2), (Hg _ Hk3), (Hg _ Hk4). now repeat split.
  - rewrite (Hc _ _ eq_refl Hk1), (Hc _ _ eq_refl Hk2), (Hc _ _ eq_refl Hk3),
      (Hc _ _ eq_refl Hk4). now repeat split.
  - destruct get_config as [|kv d] eqn:Hgc;
      cbn [bootstrap_servers settings_topic_raw topic_validated topic_alerts].
    + now repeat split.
    + rewrite (Hg _ Hk1), (Hg _ Hk2), (Hg _ Hk3), (Hg _ Hk4). now repeat split.
Qed.

Lemma unknown_environment_witness :
  dict_get "kafka.topics.raw" (dict_get_default "prod" env_configs [])
  = Some (settings_topic_raw
            (fst (create_producer [] (Some "production") (Some [("acks", PyStr "1")])))).
Proof.
  apply (unknown_environment_falls_back_to_defaults [] "production"
           (Some [("acks", PyStr "1")])).
  - reflexivity.
  - intros k _. reflexivity.
  - intros d k [= <-] [<-|[<-|[<-|[<-|[]]]]]; reflexivity.
Defined.

(** ** Batches of claims *)






(** ** Scores are finite numbers *)

Section QualityMetricsFinite.
Import Floats.
Local Open Scope float_scope.

Lemma ClaimQualityMetrics_init_in_range (utcnow : datetime) (a : ClaimQualityMetricsArgs)
    (m : ClaimQualityMetrics) :
  ClaimQualityMetrics_init utcnow a = Valid m ->
  score_in_range (completeness_score m) = true
  /\ score_in_range (accuracy_score m) = true
  /\ score_in_range (validity_score m) = true
  /\ score_in_range (overall_score m) = true.
Proof.
  unfold ClaimQualityMetrics_init, calculate_overall_score.
  rewrite !validate_score_return.
  destruct (score_in_range (arg_completeness_score a)) eqn:Hc;
  destruct (score_in_range (arg_accuracy_score a)) eqn:Ha;
  destruct (score_in_range (arg_validity_score a)) eqn:Hv;
  destruct (score_in_range (arg_overall_score a)) eqn:Ho;
  cbn [validated_value and_then].
  all: repeat match goal with
         | |- context [if ?b then _ else _] => destruct b
         end.
  all: try discriminate.
  intros [= <-]. cbn. repeat split; assumption.
Qed.

(** X23.  No score of a constructed [ClaimQualityMetrics] is a NaN or an
    infinity: the range checks refuse both, a NaN because no comparison
    with it holds. *)
Theorem quality_scores_are_finite (utcnow : datetime) (a : ClaimQualityMetricsArgs)
    (m : ClaimQualityMetrics) :
  ClaimQualityMetrics_init utcnow a = Valid m ->
  sf_is_finite (Prim2SF (completeness_score m)) = true
  /\ sf_is_finite (Prim2SF (accuracy_score m)) = true
  /\ sf_is_finite (Prim2SF (validity_score m)) = true
  /\ sf_is_finite (Prim2SF (overall_score m)) = true
  /\ is_nan (overall_score m) = false.
Proof.
  intros H. destruct (ClaimQualityMetrics_init_in_range utcnow a m H)
    as (Hc & Ha & Hv & Ho).
  repeat split; try (now apply score_in_range_finite).
  apply score_in_range_finite in Ho.
  unfold is_nan. rewrite eqb_spec. unfold SFeqb.
  destruct (Prim2SF (overall_score m)) as [s|s| |s mm e]; try discriminate Ho.
  - reflexivity.
  - cbn. rewrite Z.compare_refl, Pos.compare_cont_refl. now destruct s.
Qed.

Lemma quality_scores_finite_witness :
  exists m, ClaimQualityMetrics_init sample_now (sample_metrics_args 80) = Valid m
            /\ sf_is_finite (Prim2SF (overall_score m)) = true.
Proof.
  eexists. split; [vm_compute; reflexivity|].
  apply (quality_scores_are_finite sample_now (sample_metrics_args 80) _ eq_refl).
Defined.

(** A NaN overall score is refused. *)
Example nan_score_is_refused :
  is_valid (ClaimQualityMetrics_init sample_now (sample_metrics_args nan)) = false.
Proof. vm_compute. reflexivity. Qed.

End QualityMetricsFinite.
